(** * my-time-keeper: the daily view

    A shallow embedding of [src/components/views/dailyView.tsx]: the
    time formatting helpers, the percentage layout of the timeline, the
    grouping of events by priority, and the component's run-time behaviour
    (current-time marker, scroll-to-now, click-to-highlight).

    Conventions of the embedding.
    - A JavaScript number that holds an integer (hours, minutes, minutes of
      the day) is a [Z].  The layout arithmetic ([/ 1440], [* 100], the
      scroll position) is carried out in exact rationals [Q], and [NaN] is
      [None].  The module [Binary64] evaluates the same layout expressions
      in IEEE doubles, and [binary64_layout] bounds the distance between
      the two.  The module [Host] has the style of a block as the code
      computes it, in doubles, from the dates as the host reads them: in
      its time zone, through any clock change.
    - A JavaScript string is a [string]; an object used as a map is a
      [gmap] of its own properties, keyed by the property key.  What the
      object inherits from [Object.prototype] is in [objectPrototypeKeys],
      and [handlePriorityClickCompletion] says when the lookup of an
      inherited member makes the click handler throw.
    - The component is a record of its props, its state, its refs and the
      pending timers; every handler is a function on that record.
    - Time is the millisecond clock of the event loop: a timer runs at the
      millisecond it is due.  [scrollIntoView] is recorded, not simulated. *)

From Stdlib Require Import ZArith QArith Qminmax Qabs Lia List.
From Stdlib Require Import Ascii String DecimalString.
From Stdlib Require Import PrimFloat FloatOps SpecFloat FloatAxioms Uint63.
From stdpp Require Import base option list gmap strings.

Local Open Scope Z_scope.
#[local] Set Warnings "-abstract-large-number".

(** ** The fragment of the JavaScript run time used by the component *)

Module JS.

(** [String(n)] for an integer-valued number. *)
Definition numberToString (n : Z) : string :=
  NilZero.string_of_int (Z.to_int n).

(** [count] copies of the character [c]. *)
Fixpoint repeatChar (c : ascii) (count : nat) : string :=
  match count with
  | O => EmptyString
  | S k => String c (repeatChar c k)
  end.

(** [s.padStart(targetLength, c)] with a one-character filler. *)
Definition padStart (targetLength : nat) (c : ascii) (s : string) : string :=
  repeatChar c (targetLength - String.length s) +:+ s.

(** A [Date] object holding a valid local time, seen through its getters
    ([getMonth] counts from 0, as in JavaScript). *)
Record Date : Type := mkDate {
  getFullYear : Z;
  getMonth : Z;
  getDate : Z;
  getHours : Z;
  getMinutes : Z;
  getSeconds : Z;
  getMilliseconds : Z
}.

Definition digitValue (c : ascii) : option Z :=
  let n := Z.of_nat (nat_of_ascii c) in
  if (48 <=? n) && (n <=? 57) then Some (n - 48) else None.

(** Reads exactly [k] decimal digits. *)
Fixpoint readDigits (k : nat) (acc : Z) (s : string) : option (Z * string) :=
  match k with
  | O => Some (acc, s)
  | S k' =>
      match s with
      | EmptyString => None
      | String c rest =>
          match digitValue c with
          | Some d => readDigits k' (10 * acc + d) rest
          | None => None
          end
      end
  end.

Definition expectChar (c : ascii) (s : string) : option string :=
  match s with
  | String c' rest => if Ascii.eqb c c' then Some rest else None
  | EmptyString => None
  end.

(** The optional [:ss] and [.sss] of the date-time format. *)
Definition readSeconds (s : string) : option (Z * Z * string) :=
  match s with
  | String ":" rest =>
      '(ss, rest) ← readDigits 2 0 rest;
      match rest with
      | String "." frac => '(ms, rest') ← readDigits 3 0 frac; Some (ss, ms, rest')
      | _ => Some (ss, 0, rest)
      end
  | _ => Some (0, 0, s)
  end.

Definition isLeapYear (y : Z) : bool :=
  ((y mod 4 =? 0) && negb (y mod 100 =? 0)) || (y mod 400 =? 0).

Definition daysInMonth (y m : Z) : Z :=
  if m =? 2 then (if isLeapYear y then 29 else 28)
  else if (m =? 4) || (m =? 6) || (m =? 9) || (m =? 11) then 30
  else 31.

(** The calendar day [YYYY-MM-DD] at the head of a date or date-time string. *)
Definition readDay (s : string) : option (Z * Z * Z * string) :=
  '(y, s) ← readDigits 4 0 s;
  s ← expectChar "-" s;
  '(mo, s) ← readDigits 2 0 s;
  s ← expectChar "-" s;
  '(d, s) ← readDigits 2 0 s;
  if (1 <=? mo) && (mo <=? 12) && (1 <=? d) && (d <=? daysInMonth y mo)
  then Some (y, mo, d, s) else None.

(** [new Date(iso)] for the ECMAScript date-time string format without a
    time-zone offset, [YYYY-MM-DDTHH:mm], [YYYY-MM-DDTHH:mm:ss] or
    [YYYY-MM-DDTHH:mm:ss.sss], with hours from 00 to 23, which JavaScript
    reads as local time: the getters give the fields back as written (the
    local zone is taken to have no clock change at that instant).  [None]
    stands for every other string: one JavaScript turns into an Invalid
    Date, whose getters return [NaN], or one outside this fragment. *)
Definition newDate (iso : string) : option Date :=
  '(y, mo, d, s) ← readDay iso;
  s ← expectChar "T" s;
  '(h, s) ← readDigits 2 0 s;
  s ← expectChar ":" s;
  '(mi, s) ← readDigits 2 0 s;
  '(ss, ms, s) ← readSeconds s;
  match s with
  | EmptyString =>
      if (h <=? 23) && (mi <=? 59) && (ss <=? 59)
      then Some (mkDate y (mo - 1) d h mi ss ms) else None
  | String _ _ => None
  end.

End JS.

(** ** The component: data and pure helpers *)

Module DailyView.
Import JS.

(** [priorityLevel: 1 | 2 | 3] (1 = High priority, 2 = Moderate, 3 = Low). *)
Inductive PriorityLevel : Type := High | Moderate | Low.

#[global] Instance PriorityLevel_eq_dec : EqDecision PriorityLevel.
Proof. solve_decision. Defined.

(** [id: string | number]. *)
Inductive EventId : Type :=
  | IdString (s : string)
  | IdNumber (n : Z).

(** The property key under which an identifier indexes a JavaScript object:
    the string itself, or the number converted to a string, [String(n)],
    which for the integers of [safeId] below writes all the digits. *)
Definition propertyKey (i : EventId) : string :=
  match i with
  | IdString s => s
  | IdNumber n => numberToString n
  end.


Record DailyEvent : Type := mkEvent {
  id : EventId;
  title : string;
  description : option string;
  start : string;
  end_ : string;
  color : option string;
  priorityLevel : PriorityLevel
}.

(** [getMinutesOfDay], for the dates of [JS.newDate]: on a host whose clock
    skips none of the written times ([Host.getMinutesOfDay] is the function
    on any host).  [None] stands for a string outside those of [JS.newDate],
    for which the code has [NaN] or the minutes the host reads. *)
Definition getMinutesOfDay (isoString : string) : option Z :=
  dateObj ← newDate isoString;
  Some (getHours dateObj * 60 + getMinutes dateObj).

Definition formatHourLabel (hour24 : Z) : string :=
  let ampm := if hour24 <? 12 then "AM" else "PM" in
  let hour := Z.rem hour24 12 in
  let hour := if hour =? 0 then 12 else hour in
  numberToString hour +:+ ampm.

Definition formatTime (dateObj : Date) : string :=
  let hours := getHours dateObj in
  let minutes := padStart 2 "0" (numberToString (getMinutes dateObj)) in
  let ampm := if hours <? 12 then "AM" else "PM" in
  let hour12 := if Z.rem hours 12 =? 0 then 12 else Z.rem hours 12 in
  numberToString hour12 +:+ ":" +:+ minutes +:+ " " +:+ ampm.

(** [formatTimeRange], for the dates of [JS.newDate]; [None] stands for a
    string outside them, for which the code still builds a label (one with
    [NaN] in it for an Invalid Date). *)
Definition formatTimeRange (startIso endIso : string) : option string :=
  start ← newDate startIso;
  end_ ← newDate endIso;
  Some (formatTime start +:+ " - " +:+ formatTime end_).

(** *** The timeline: half-hour slots and event blocks *)

Definition totalSlots : nat := 48.

(** The label of a slot: every second slot carries its hour. *)
Definition slotLabel (slotIndex : nat) : option string :=
  if (slotIndex mod 2 =? 0)%nat
  then Some (formatHourLabel (Z.of_nat slotIndex / 2))
  else None.

Definition slotLabels : list (option string) :=
  map slotLabel (seq 0 totalSlots).

(** What the view puts on the page for one event: the [li] of the events
    layer with its inline style. *)
Record TimelineBlock : Type := mkBlock {
  blockKey : EventId;
  top : option Q;
  height : option Q;
  backgroundColor : string;
  blockTitle : string;
  blockDescription : option string;
  timeRange : option string
}.

(** [event.color || '#DBEAFE']: a missing or empty colour falls back. *)
Definition colorOrDefault (c : option string) : string :=
  match c with
  | Some (String a rest) => String a rest
  | _ => "#DBEAFE"
  end.

(** [description && ...]: a missing or empty description shows nothing. *)
Definition shownDescription (d : option string) : option string :=
  match d with
  | Some (String a rest) => Some (String a rest)
  | _ => None
  end.

(** The [events.map] callback, with the percentages of [top] and [height]
    as exact rationals: the numbers the doubles of the code approximate.
    [Host.renderEvent] has the two as the code computes them, in doubles. *)
Definition renderEvent (event : DailyEvent) : TimelineBlock :=
  let startMinutes := getMinutesOfDay (start event) in
  let endMinutes := getMinutesOfDay (end_ event) in
  let totalDayMinutes := 1440%Q in
  let startPct := (λ m, (inject_Z m / totalDayMinutes) * 100)%Q <$> startMinutes in
  let endPct := (λ m, (inject_Z m / totalDayMinutes) * 100)%Q <$> endMinutes in
  {| blockKey := id event;
     top := startPct;
     height := (e ← endPct; s ← startPct; Some (e - s)%Q);
     backgroundColor := colorOrDefault (color event);
     blockTitle := title event;
     blockDescription := shownDescription (description event);
     timeRange := formatTimeRange (start event) (end_ event) |}.

Definition eventsLayer (events : list DailyEvent) : list TimelineBlock :=
  map renderEvent events.

(** *** Grouping by priority *)

(** The object [{1: [], 2: [], 3: []}]. *)
Record PriorityMap : Type := mkPriorityMap {
  bucket1 : list DailyEvent;
  bucket2 : list DailyEvent;
  bucket3 : list DailyEvent
}.

(** [priorityMap[level]]. *)
Definition bucket (m : PriorityMap) (level : PriorityLevel) : list DailyEvent :=
  match level with
  | High => bucket1 m
  | Moderate => bucket2 m
  | Low => bucket3 m
  end.

(** [priorityMap[evt.priorityLevel].push(evt)]. *)
Definition pushEvent (m : PriorityMap) (evt : DailyEvent) : PriorityMap :=
  match priorityLevel evt with
  | High => mkPriorityMap (bucket1 m ++ [evt]) (bucket2 m) (bucket3 m)
  | Moderate => mkPriorityMap (bucket1 m) (bucket2 m ++ [evt]) (bucket3 m)
  | Low => mkPriorityMap (bucket1 m) (bucket2 m) (bucket3 m ++ [evt])
  end.

Definition priorityMap (events : list DailyEvent) : PriorityMap :=
  fold_left pushEvent events (mkPriorityMap [] [] []).

(** What a [PriorityGroup] shows: the placeholder for an empty bucket, or
    one entry (identifier, title and optional description) per event. *)
Inductive GroupBody : Type :=
  | Placeholder (text : string)
  | Entries (items : list (EventId * string * option string)).

(** [label.toLowerCase()] on ASCII letters. *)
Definition lowerChar (c : ascii) : ascii :=
  let n := nat_of_ascii c in
  if ((65 <=? n) && (n <=? 90))%nat then ascii_of_nat (n + 32) else c.

Fixpoint toLowerCase (s : string) : string :=
  match s with
  | EmptyString => EmptyString
  | String c rest => String (lowerChar c) (toLowerCase rest)
  end.

Definition PriorityGroup (label : string) (events : list DailyEvent) : GroupBody :=
  match events with
  | [] => Placeholder ("No " +:+ toLowerCase label +:+ " events.")
  | _ => Entries (map (λ evt, (id evt, title evt, shownDescription (description evt))) events)
  end.

(** The three groups of the side panel; a click on an entry calls
    [handlePriorityClick] with the identifier the entry carries. *)
Definition sidePanel (events : list DailyEvent) : list GroupBody :=
  let m := priorityMap events in
  [ PriorityGroup "High Priority" (bucket m High);
    PriorityGroup "Moderate Priority" (bucket m Moderate);
    PriorityGroup "Low Priority" (bucket m Low) ].

(** *** The mounted component *)

(** What [new Date()] shows at one instant: the day of
    [toISOString().split('T')[0]] (the calendar day in UTC), and the local
    [getHours()] and [getMinutes()]. *)
Record Now : Type := mkNow {
  todayIso : string;
  nowHours : Z;
  nowMinutes : Z
}.

(** The scroll container, as far as the component reads and writes it. *)
Record Container : Type := mkContainer {
  scrollHeight : Q;
  clientHeight : Q;
  scrollTop : Q
}.

(** A DOM element of the events layer. *)
Definition Element : Type := nat.

(** The component instance: props, state, refs, the part of the DOM it
    touches, its pending timers, and the event loop's millisecond clock. *)
Record View : Type := mkView {
  date : string;
  dayLabel : string;
  events : list DailyEvent;
  nowFraction : Q;
  isToday : bool;
  scrollContainerRef : option Container;
  eventRefs : gmap string Element;
  classList : gmap Element (list string);
  scrolledIntoView : list Element;
  intervalId : option Z;
  timeouts : list (Z * Element);
  clock : Z
}.

Definition setNowFractionField (x : Q) (v : View) : View :=
  mkView (date v) (dayLabel v) (events v) x (isToday v) (scrollContainerRef v)
    (eventRefs v) (classList v) (scrolledIntoView v) (intervalId v) (timeouts v) (clock v).

Definition setIsToday (b : bool) (v : View) : View :=
  mkView (date v) (dayLabel v) (events v) (nowFraction v) b (scrollContainerRef v)
    (eventRefs v) (classList v) (scrolledIntoView v) (intervalId v) (timeouts v) (clock v).

Definition setContainer (c : option Container) (v : View) : View :=
  mkView (date v) (dayLabel v) (events v) (nowFraction v) (isToday v) c
    (eventRefs v) (classList v) (scrolledIntoView v) (intervalId v) (timeouts v) (clock v).

Definition setClassList (m : gmap Element (list string)) (v : View) : View :=
  mkView (date v) (dayLabel v) (events v) (nowFraction v) (isToday v) (scrollContainerRef v)
    (eventRefs v) m (scrolledIntoView v) (intervalId v) (timeouts v) (clock v).

Definition setScrolledIntoView (l : list Element) (v : View) : View :=
  mkView (date v) (dayLabel v) (events v) (nowFraction v) (isToday v) (scrollContainerRef v)
    (eventRefs v) (classList v) l (intervalId v) (timeouts v) (clock v).

Definition setIntervalId (i : option Z) (v : View) : View :=
  mkView (date v) (dayLabel v) (events v) (nowFraction v) (isToday v) (scrollContainerRef v)
    (eventRefs v) (classList v) (scrolledIntoView v) i (timeouts v) (clock v).

Definition setTimeouts (l : list (Z * Element)) (v : View) : View :=
  mkView (date v) (dayLabel v) (events v) (nowFraction v) (isToday v) (scrollContainerRef v)
    (eventRefs v) (classList v) (scrolledIntoView v) (intervalId v) l (clock v).

Definition setClock (t : Z) (v : View) : View :=
  mkView (date v) (dayLabel v) (events v) (nowFraction v) (isToday v) (scrollContainerRef v)
    (eventRefs v) (classList v) (scrolledIntoView v) (intervalId v) (timeouts v) t.

(** [element.classList]: the tokens of the element's class attribute. *)
Definition classesOf (v : View) (element : Element) : list string :=
  default [] (classList v !! element).

(** [classList.add(...tokens)]: a token already present is not repeated. *)
Definition classListAdd (tokens : list string) (cl : list string) : list string :=
  fold_left (λ acc t, if bool_decide (t ∈ acc) then acc else acc ++ [t]) tokens cl.

(** [classList.remove(...tokens)]. *)
Definition classListRemove (tokens : list string) (cl : list string) : list string :=
  filter (λ t, t ∉ tokens) cl.

(** The two classes of the highlight ring. *)
Definition ringClasses : list string := ["ring-2"; "ring-indigo-500"].

(** The [className] of an event's [li]. *)
Definition blockClassName : list string :=
  ["absolute"; "left-14"; "right-2"; "flex"; "flex-col"; "overflow-hidden";
   "rounded"; "p-2"; "text-xs"; "leading-5"; "hover:opacity-90"].

(** An element shows the highlight when it carries both ring classes, and
    is plain when it carries neither. *)
Definition highlighted (v : View) (element : Element) : Prop :=
  Forall (λ t, t ∈ classesOf v element) ringClasses.

Definition plain (v : View) (element : Element) : Prop :=
  Forall (λ t, t ∉ classesOf v element) ringClasses.

#[global] Instance highlighted_dec v element : Decision (highlighted v element).
Proof. unfold highlighted. apply _. Defined.

#[global] Instance plain_dec v element : Decision (plain v element).
Proof. unfold plain. apply _. Defined.

(** The ref callbacks of the events layer, run in list order when the
    elements are attached: the [n]-th [li] is element [n], and a later
    event with the same property key replaces an earlier one. *)
Fixpoint attachRefs (n : nat) (evts : list DailyEvent)
    (refs : gmap string Element) : gmap string Element :=
  match evts with
  | [] => refs
  | event :: rest => attachRefs (S n) rest (<[propertyKey (id event) := n]> refs)
  end.

(** The class attribute React writes on the same elements. *)
Fixpoint attachClasses (n : nat) (evts : list DailyEvent)
    (m : gmap Element (list string)) : gmap Element (list string) :=
  match evts with
  | [] => m
  | _ :: rest => attachClasses (S n) rest (<[n := blockClassName]> m)
  end.



Section Runtime.

(** The wall clock: what [new Date()] shows at each millisecond of the
    event loop's clock. *)
Variable wall : Z → Now.

Definition computeNowFraction (now : Now) : Q :=
  let minutesSinceMidnight := nowHours now * 60 + nowMinutes now in
  inject_Z minutesSinceMidnight / 1440.

Definition scrollToNow (v : View) : View :=
  match scrollContainerRef v with
  | None => v
  | Some container =>
      if negb (isToday v) then v
      else
        let now := wall (clock v) in
        let minutesSinceMidnight := nowHours now * 60 + nowMinutes now in
        let maxScroll := (scrollHeight container - clientHeight container)%Q in
        let scrollPosition := ((inject_Z minutesSinceMidnight / 1440) * maxScroll)%Q in
        setContainer
          (Some (mkContainer (scrollHeight container) (clientHeight container)
                   (Qmax 0 (Qmin scrollPosition maxScroll))))
          v
  end.

(** The body of the effect, run with the [isToday] of the latest render. *)
Definition effect (v : View) : View :=
  let v := if isToday v then scrollToNow v else v in
  if isToday v then setIntervalId (Some (clock v + 60000)) v else v.

(** The effect's cleanup: [clearInterval] when an interval was set. *)
Definition cleanup (v : View) : View := setIntervalId None v.

(** The component body evaluated again: [isToday] is recomputed from
    [new Date()]; the effect, whose dependencies are [isToday] and
    [scrollToNow] (itself memoised on [isToday]), runs again only when
    [isToday] has changed.  The ref callbacks run again too and, the list
    of events being the same, store the same elements. *)
Definition rerender (v : View) : View :=
  let today := String.eqb (date v) (todayIso (wall (clock v))) in
  if Bool.eqb today (isToday v) then v
  else effect (cleanup (setIsToday today v)).

(** [setNowFraction(value)]: a state equal to the current one schedules no
    render. *)
Definition setNowFraction (value : Q) (v : View) : View :=
  if Qeq_bool value (nowFraction v) then v
  else rerender (setNowFractionField value v).

(** The interval's callback. *)
Definition onInterval (v : View) : View :=
  setNowFraction (computeNowFraction (wall (clock v))) v.

(** The timeout's callback: the closure removes the ring from the element
    it captured. *)
Definition onTimeout (element : Element) (v : View) : View :=
  setClassList
    (<[element := classListRemove ringClasses (classesOf v element)]> (classList v)) v.

(** The view after a call of [handlePriorityClick]: changed when an element
    is registered under the key and the container is attached, and as it
    was otherwise, whether the call returns or throws (see
    [handlePriorityClickCompletion]). *)
Definition handlePriorityClick (i : EventId) (v : View) : View :=
  match eventRefs v !! propertyKey i, scrollContainerRef v with
  | Some element, Some _ =>
      let v := setScrolledIntoView (element :: scrolledIntoView v) v in
      let v := setClassList
                 (<[element := classListAdd ringClasses (classesOf v element)]> (classList v)) v in
      setTimeouts (timeouts v ++ [(clock v + 2000, element)]) v
  | _, _ => v
  end.


(** First render, attaching of the refs, and the effect, at time [t0]. *)
Definition mount (date : string) (dayLabel : string) (events : list DailyEvent)
    (container : Container) (t0 : Z) : View :=
  effect
    (mkView date dayLabel events
       (computeNowFraction (wall t0))
       (String.eqb date (todayIso (wall t0)))
       (Some container)
       (attachRefs 0 events ∅)
       (attachClasses 0 events ∅)
       [] None [] t0).

(** The current-time indicator of a render: its [top], in percent. *)
Definition nowMarker (v : View) : option Q :=
  if isToday v then Some (nowFraction v * 100)%Q else None.

(** *** The event loop *)

(** The timeouts whose time has come run in the order they were set. *)
Definition runTimeouts (v : View) : View :=
  let due := filter (λ p, p.1 ≤ clock v) (timeouts v) in
  let later := filter (λ p, ¬ p.1 ≤ clock v) (timeouts v) in
  fold_left (λ w p, onTimeout p.2 w) due (setTimeouts later v).

(** The interval runs when its time has come and is set again one period
    later. *)
Definition runInterval (v : View) : View :=
  match intervalId v with
  | Some due =>
      if due <=? clock v then onInterval (setIntervalId (Some (due + 60000)) v) else v
  | None => v
  end.

(** One millisecond passes. *)
Definition tick (v : View) : View :=
  runInterval (runTimeouts (setClock (clock v + 1) v)).

Fixpoint elapse (ms : nat) (v : View) : View :=
  match ms with
  | O => v
  | S k => elapse k (tick v)
  end.

(** What can happen to a mounted view: a click on an entry of a priority
    group, a click on the Today button, the passage of time. *)
Inductive Action : Type :=
  | ClickEntry (i : EventId)
  | ClickToday
  | Elapse (ms : nat).

Definition step (v : View) (a : Action) : View :=
  match a with
  | ClickEntry i => handlePriorityClick i v
  | ClickToday => scrollToNow v
  | Elapse ms => elapse ms v
  end.

Definition run (actions : list Action) (v : View) : View :=
  fold_left step actions v.

(** The time a sequence of actions takes. *)
Definition duration (actions : list Action) : nat :=
  foldr (λ a n, match a with Elapse ms => (ms + n)%nat | _ => n end) 0%nat actions.

End Runtime.

End DailyView.

(** ** The page that mounts the view ([src/app/daily/page.tsx]) *)

Module DailyPage.
Import DailyView.

(** The three sample events of the page, on the day [isoDate]. *)
Definition events (isoDate : string) : list DailyEvent :=
  [ mkEvent (IdNumber 1) "Breakfast" (Some "Eggs and toast"%string)
      (isoDate +:+ "T06:00") (isoDate +:+ "T07:00") None High;
    mkEvent (IdNumber 2) "Flight to Paris" (Some "Departing from JFK"%string)
      (isoDate +:+ "T07:30") (isoDate +:+ "T09:00") None Moderate;
    mkEvent (IdNumber 3) "Dinner Reservation" None
      (isoDate +:+ "T19:00") (isoDate +:+ "T20:30") None Low ].

(** The page passes today's day, as [DailyView] itself computes it, and
    the name of the weekday, [weekday]. *)
Definition DailyPage (wall : Z → Now) (weekday : string) (container : Container)
    (t0 : Z) : View :=
  let isoDate := todayIso (wall t0) in
  mount wall isoDate weekday (events isoDate) container t0.

End DailyPage.

(** ** The behaviour in the specification's words

    Reference definitions that follow the wording of the specification, for
    comparison with the functions translated from the source. *)

Module Spec.
Import JS DailyView.

(** The character of one decimal digit. *)
Definition digitChar (d : Z) : ascii := ascii_of_nat (48 + Z.to_nat d).

(** The hour on a 12-hour clock: midnight and noon render as 12. *)
Definition clock12 (hour24 : Z) : Z :=
  if hour24 =? 0 then 12 else if hour24 <=? 12 then hour24 else hour24 - 12.

(** The AM/PM suffix. *)
Definition meridiem (hour24 : Z) : string :=
  if hour24 <? 12 then "AM" else "PM".

(** An hour from 1 to 12 with no leading zero. *)
Definition hourDigits (hour12 : Z) : string :=
  if hour12 <? 10 then String (digitChar hour12) EmptyString
  else String (digitChar (hour12 / 10)) (String (digitChar (hour12 mod 10)) EmptyString).

(** Minutes, zero-padded to two digits. *)
Definition twoDigits (minutes : Z) : string :=
  String (digitChar (minutes / 10)) (String (digitChar (minutes mod 10)) EmptyString).

(** A year of four digits. *)
Definition fourDigits (year : Z) : string :=
  String (digitChar (year / 1000))
    (String (digitChar (year / 100 mod 10)) (twoDigits (year mod 100))).

(** The local date-time string "YYYY-MM-DDTHH:mm". *)
Definition isoLocal (year month day hours minutes : Z) : string :=
  fourDigits year +:+ "-" +:+ twoDigits month +:+ "-" +:+ twoDigits day +:+ "T" +:+
  twoDigits hours +:+ ":" +:+ twoDigits minutes.

(** The gridline label, as in "1AM", "12PM". *)
Definition hourLabel (hour24 : Z) : string :=
  hourDigits (clock12 hour24) +:+ meridiem hour24.

(** "h:mm AM/PM". *)
Definition timeLabel (hour24 minutes : Z) : string :=
  hourDigits (clock12 hour24) +:+ ":" +:+ twoDigits minutes +:+ " " +:+ meridiem hour24.

(** Minutes elapsed since local midnight. *)
Definition minutesOfDay (d : Date) : Z := getHours d * 60 + getMinutes d.

(** The instant [d] falls within the day named by [date] ("YYYY-MM-DD"). *)
Definition onDay (date : string) (d : Date) : Prop :=
  readDay date = Some (getFullYear d, getMonth d + 1, getDate d, EmptyString).

(** Calendar days in their order, and the milliseconds since midnight. *)
Definition dayNumber (d : Date) : Z :=
  (getFullYear d * 12 + getMonth d) * 31 + (getDate d - 1).

Definition msOfDay (d : Date) : Z :=
  ((getHours d * 60 + getMinutes d) * 60 + getSeconds d) * 1000 + getMilliseconds d.

(** The instant [a] is strictly before the instant [b]. *)
Definition before (a b : Date) : Prop :=
  dayNumber a < dayNumber b ∨ (dayNumber a = dayNumber b ∧ msOfDay a < msOfDay b).

(** Clamping to an interval. *)
Definition clamp (lo hi x : Q) : Q := Qmax lo (Qmin x hi).

(** The scrollable height of the container: how far it can be scrolled. *)
Definition scrollableHeight (container : Container) : Q :=
  (scrollHeight container - clientHeight container)%Q.

(** The scroll position for the time of day shown by [now]. *)
Definition nowPosition (now : Now) (container : Container) : Q :=
  clamp 0 (scrollableHeight container)
    ((inject_Z (nowHours now * 60 + nowMinutes now) / 1440) * scrollableHeight container)%Q.


End Spec.

(** ** The layout arithmetic in IEEE doubles

    The expressions of [renderEvent] on the kernel's binary64 numbers, which
    are the numbers of JavaScript. *)

Module Binary64.

(** An integer-valued number. *)
Definition ofInt (n : Z) : float := PrimFloat.of_uint63 (Uint63.of_Z n).

(** [(startMinutes / totalDayMinutes) * 100]. *)
Definition startPct (startMinutes : Z) : float :=
  (ofInt startMinutes / 1440 * 100)%float.

(** [endPct - startPct]. *)
Definition heightPct (startMinutes endMinutes : Z) : float :=
  (startPct endMinutes - startPct startMinutes)%float.

(** The value of a finite double in units of 2^-60, when it is a whole
    number of them. *)
Definition scaled (x : float) : option Z :=
  match Prim2SF x with
  | S754_zero _ => Some 0
  | S754_finite sign m e =>
      if -60 <=? e
      then Some (if sign then - Z.shiftl (Z.pos m) (e + 60) else Z.shiftl (Z.pos m) (e + 60))
      else None
  | _ => None
  end.

Definition unit60 : Z := Eval vm_compute in 2 ^ 60.

Definition tolerance : Z := Eval vm_compute in 1440 * 2 ^ 16.

(** The exact value of such a double. *)
Definition value (x : float) : option Q :=
  z ← scaled x; Some (z # 1152921504606846976).

(** [v] units of 2^-60 are within 2^-44 of [m * 100 / 1440]. *)
Definition near (v m : Z) : bool :=
  Z.abs (1440 * v - m * (100 * unit60)) <=? tolerance.

(** The double [x] is within 2^-44 of the percentage of [m] minutes. *)
Definition closeTo (m : Z) (x : float) : bool :=
  match scaled x with
  | Some v => near v m
  | None => false
  end.

(** It is, and is at least 0. *)
Definition certified (m : Z) (x : float) : bool :=
  match scaled x with
  | Some v => (0 <=? v) && near v m
  | None => false
  end.

(** The doubles met so far, each kept once. *)
Fixpoint insertNew (h : float) (seen : list float) : list float :=
  match seen with
  | [] => [h]
  | x :: rest => if Leibniz.eqb h x then seen else x :: insertNew h rest
  end.

(** The heights [end - start] over two lists of percentages read side by
    side. *)
Fixpoint differences (starts ends seen : list float) : list float :=
  match starts, ends with
  | x :: starts', y :: ends' => differences starts' ends' (insertNew (y - x)%float seen)
  | _, _ => seen
  end.

(** The percentages of the first [n] minutes of the day. *)
Definition table (n : nat) : list float :=
  map (λ m, startPct (Z.of_nat m)) (seq 0 n).

(** Every height of an event that lasts [d] minutes is certified, and every
    height of one that ends [d] minutes before it starts is close to the
    percentage of [- d] minutes. *)
Definition checkDifference (percentages : list float) (d : nat) : bool :=
  forallb (certified (Z.of_nat d)) (differences percentages (drop d percentages) []) &&
  forallb (closeTo (- Z.of_nat d)) (differences (drop d percentages) percentages []).

(** The check of every top and every height within the first [n] minutes. *)
Definition checkDay (n : nat) : bool :=
  let percentages := table n in
  forallb (λ m, certified (Z.of_nat m) (startPct (Z.of_nat m))) (seq 0 n) &&
  forallb (checkDifference percentages) (seq 0 n).

End Binary64.

(** ** The component on its host: time zone and doubles *)

Module Host.
Import JS DailyView.

(** The host's [new Date(string)]: the [Date] whose getters return local
    time, or [None] for an Invalid Date. *)
Definition Reader : Type := string → option Date.

(** The hours and minutes are those of a time of day. *)
Definition timeOfDay (d : Date) : bool :=
  (0 <=? getHours d) && (getHours d <=? 23) && (0 <=? getMinutes d) && (getMinutes d <=? 59).

(** Every [Date] the host returns shows a time of day. *)
Definition wellFormed (newDate : Reader) : Prop :=
  ∀ iso d, newDate iso = Some d → timeOfDay d = true.

(** [getMinutesOfDay] on that host; [None] is [NaN]. *)
Definition getMinutesOfDay (newDate : Reader) (isoString : string) : option Z :=
  dateObj ← newDate isoString;
  Some (getHours dateObj * 60 + getMinutes dateObj).

Definition formatTimeRange (newDate : Reader) (startIso endIso : string) : option string :=
  start ← newDate startIso;
  end_ ← newDate endIso;
  Some (formatTime start +:+ " - " +:+ formatTime end_).

(** The [top] and the [height] of the style of an event's block, in
    percent, as the [events.map] callback computes them: in doubles, the
    height as the difference of the two percentages.  [None] when the
    minutes of the start or of the end are [NaN]. *)
Definition renderEvent (newDate : Reader) (event : DailyEvent) : option (float * float) :=
  startMinutes ← getMinutesOfDay newDate (start event);
  endMinutes ← getMinutesOfDay newDate (end_ event);
  let totalDayMinutes := 1440%float in
  let startPct := (Binary64.ofInt startMinutes / totalDayMinutes * 100)%float in
  let endPct := (Binary64.ofInt endMinutes / totalDayMinutes * 100)%float in
  Some (startPct, (endPct - startPct)%float).

Definition eventsLayer (newDate : Reader) (events : list DailyEvent)
    : list (option (float * float)) :=
  map (renderEvent newDate) events.

(** A time zone, as far as reading a local time goes: the local time the
    clock shows for the instant that a written local time is taken to
    name.  That is the written time itself, unless a clock change skips
    it: the skipped time is read with the offset before the change, and
    shows later by the length of the skip. *)
Definition Zone : Type := Date → Date.

(** [new Date(iso)] in a time zone, for the strings of [JS.newDate]. *)
Definition local (zone : Zone) : Reader :=
  λ iso,
    written ← JS.newDate iso;
    let shown := zone written in
    if timeOfDay shown then Some shown else None.

(** A zone whose clock never changes, such as UTC. *)
Definition steady : Zone := λ written, written.

(** America/New_York in March 2022: on the 13th the clock goes from 01:59
    to 03:00, and a time written in the hour from 02:00 shows an hour
    later. *)
Definition newYork2022 : Zone :=
  λ written,
    if (getFullYear written =? 2022) && (getMonth written =? 2) && (getDate written =? 13)
       && (getHours written =? 2)
    then mkDate 2022 2 13 3 (getMinutes written) (getSeconds written)
           (getMilliseconds written)
    else written.

End Host.

(** ** Invariants of the mounted view *)

Module Inv.
Import DailyView.

(** The fields the marker depends on. *)
Definition timing (v : View) : string * Q * bool * option Z * Z :=
  (date v, nowFraction v, isToday v, intervalId v, clock v).

(** The fields the highlight depends on. *)
Definition decor (v : View) : gmap Element (list string) * list (Z * Element) * Z :=
  (classList v, timeouts v, clock v).

(** A view that does not show today: no marker, no interval. *)
Definition offToday (v : View) : Prop :=
  isToday v = false ∧ intervalId v = None.

(** A view showing the day [d], [e] milliseconds after it was mounted at
    [t0]: the fraction of the day is that of the latest multiple of 60
    seconds, and the interval is due at the next one. *)
Definition onToday (wall : Z → Now) (d : string) (t0 e : Z) (v : View) : Prop :=
  timing v =
    (d, computeNowFraction (wall (t0 + 60000 * (e / 60000))), true,
     Some (t0 + 60000 * (e / 60000 + 1)), t0 + e).

(** In the two seconds after a click at time [t]: the element is
    highlighted, its removal is pending for [t + 2000], and no removal is
    pending for it before that. *)
Definition armed (t : Z) (element : Element) (v : View) : Prop :=
  highlighted v element ∧
  (t + 2000, element) ∈ timeouts v ∧
  (∀ due, (due, element) ∈ timeouts v → t + 2000 ≤ due).

End Inv.

(** ** A view to try things on *)

Module Sample.
Import DailyView.

(** Saturday 22 January 2022, the clock counting from local midnight. *)
Definition wall (t : Z) : Now :=
  mkNow "2022-01-22" ((t / 3600000) mod 24) ((t / 60000) mod 60).

(** The 48 slots at 3.5rem of 16 pixels each, in a window 800 pixels high. *)
Definition container : Container := mkContainer 2688 800 0.

(** Half past six in the morning. *)
Definition morning : Z := 6 * 3600000 + 30 * 60000.

(** The page of that day, mounted in the morning. *)
Definition page : View := DailyPage.DailyPage wall "Saturday" container morning.


End Sample.

(** ** A view opened shortly before midnight *)

Module Night.
Import DailyView.

(** The clock of [Sample.wall], running on into 23 January. *)
Definition wall (t : Z) : Now :=
  mkNow (if t <? 86400000 then "2022-01-22" else "2022-01-23")
    ((t / 3600000) mod 24) ((t / 60000) mod 60).

(** Thirty seconds before midnight. *)
Definition lateEvening : Z := 86400000 - 30000.

Definition page : View := DailyPage.DailyPage wall "Saturday" Sample.container lateEvening.




End Night.

(** ** The day the page passes to the view *)

Module Calendar.

(** The day "YYYY-MM-DD", as [toISOString().split('T')[0]] writes it for a
    year of four digits. *)
Definition isoDay (year month day : Z) : string :=
  Spec.fourDigits year +:+ "-" +:+ Spec.twoDigits month +:+ "-" +:+ Spec.twoDigits day.

End Calendar.

(** ** The rest of the component's life, and readers for what it shows *)

Module Lifecycle.
Import DailyView.

(** Unmounting: React runs the cleanup of the effect ([clearInterval]) and
    empties the object ref of the scroll container.  The ref callbacks of
    the events are called with [null], which they ignore, so [eventRefs]
    keeps its entries; the timeouts of the highlight are not cancelled. *)
Definition unmount (v : View) : View := setContainer None (cleanup v).

End Lifecycle.

Module Panel.
Import DailyView.

(** The identifiers carried by the entries of one group, in order. *)
Definition entryIds (g : GroupBody) : list EventId :=
  match g with
  | Placeholder _ => []
  | Entries items => map (λ item, item.1.1) items
  end.

(** The identifiers carried by the entries of the whole side panel. *)
Definition panelIds (groups : list GroupBody) : list EventId :=
  concat (map entryIds groups).

(** The time of day written in a label "h:mm AM/PM", as hours of the
    24-hour clock and minutes. *)
Definition readTimeLabel (label : string) : option (Z * Z) :=
  let clockTime (h12 : Z) (rest : string) : option (Z * Z) :=
    rest ← JS.expectChar ":" rest;
    '(m, rest) ← JS.readDigits 2 0 rest;
    rest ← JS.expectChar " " rest;
    match rest with
    | String "A" (String "M" EmptyString) => Some (h12 mod 12, m)
    | String "P" (String "M" EmptyString) => Some (h12 mod 12 + 12, m)
    | _ => None
    end in
  match JS.readDigits 2 0 label with
  | Some (h12, rest) => clockTime h12 rest
  | None => '(h12, rest) ← JS.readDigits 1 0 label; clockTime h12 rest
  end.

End Panel.

(** ** Invariants of every view that was mounted *)

Module Reach.
Import DailyView.

(** No highlight without its removal: an element that is not plain has a
    removal pending, and every pending removal is due within the next two
    seconds. *)
Definition tidy (v : View) : Prop :=
  (∀ element, ¬ plain v element → ∃ due, (due, element) ∈ timeouts v) ∧
  (∀ due element, (due, element) ∈ timeouts v → clock v < due ≤ clock v + 2000).

(** The interval is pending exactly while the view shows today, and is due
    within the next minute. *)
Definition ticking (v : View) : Prop :=
  match intervalId v with
  | Some due => isToday v = true ∧ clock v < due ≤ clock v + 60000
  | None => isToday v = false
  end.

(** The scroll container is attached. *)
Definition attached (v : View) : Prop := is_Some (scrollContainerRef v).

(** The classes of an element apart from those of the ring. *)
Definition bare (v : View) (element : Element) : list string :=
  classListRemove ringClasses (classesOf v element).

End Reach.

(** * Properties *)

Import JS DailyView Inv.

(** ** Reading dates *)

Section Parsing.

Lemma digitValue_range c d : digitValue c = Some d → 0 ≤ d ≤ 9.
Proof.
  unfold digitValue. intros H.
  destruct (48 <=? Z.of_nat (nat_of_ascii c)) eqn:Hlo; [|discriminate].
  destruct (Z.of_nat (nat_of_ascii c) <=? 57) eqn:Hhi; [|discriminate].
  simpl in H. injection H as <-. lia.
Qed.

Lemma readDigits_range k : ∀ acc s n rest,
  readDigits k acc s = Some (n, rest) →
  0 ≤ acc → acc * 10 ^ Z.of_nat k ≤ n < (acc + 1) * 10 ^ Z.of_nat k.
Proof.
  induction k as [|k IH]; intros acc s n rest H Hacc.
  - simpl in H. injection H as <- _. simpl. lia.
  - simpl in H. destruct s as [|c s']; [discriminate|].
    destruct (digitValue c) as [d|] eqn:Hd; [|discriminate].
    apply digitValue_range in Hd.
    apply IH in H; [|lia].
    rewrite Nat2Z.inj_succ, Z.pow_succ_r by lia.
    assert (0 < 10 ^ Z.of_nat k) by (apply Z.pow_pos_nonneg; lia).
    nia.
Qed.

Local Opaque readDigits.

Lemma readSeconds_range s ss ms rest :
  readSeconds s = Some (ss, ms, rest) → 0 ≤ ss ∧ 0 ≤ ms ≤ 999.
Proof.
  unfold readSeconds. intros H.
  destruct s as [|c s']; [injection H as <- <- _; lia|].
  destruct (decide (c = ":"%char)) as [->|Hc].
  - destruct (readDigits 2 0 s') as [[n r]|] eqn:H2; simpl in H; [|discriminate].
    apply readDigits_range in H2; [|lia].
    destruct r as [|c2 r'].
    + injection H as <- <- _. lia.
    + destruct (decide (c2 = "."%char)) as [->|Hc2].
      * simpl in H.
        destruct (readDigits 3 0 r') as [[n3 r3]|] eqn:H3; simpl in H; [|discriminate].
        apply readDigits_range in H3; [|lia].
        injection H as <- <- _. simpl in H3. lia.
      * assert (Some (n, 0, String c2 r') = Some (ss, ms, rest)) as Heq.
        { rewrite <- H. destruct c2 as [[] [] [] [] [] [] [] []]; try reflexivity.
          contradiction Hc2; reflexivity. }
        injection Heq as <- <- _. lia.
  - assert (Some (0, 0, String c s') = Some (ss, ms, rest)) as Heq.
    { rewrite <- H. destruct c as [[] [] [] [] [] [] [] []]; try reflexivity.
      contradiction Hc; reflexivity. }
    injection Heq as <- <- _. lia.
Qed.

(** A date that was read holds a time of day. *)
Lemma newDate_time_of_day iso d :
  newDate iso = Some d →
  0 ≤ getHours d ≤ 23 ∧ 0 ≤ getMinutes d ≤ 59 ∧
  0 ≤ getSeconds d ≤ 59 ∧ 0 ≤ getMilliseconds d ≤ 999.
Proof.
  unfold newDate. intros H.
  destruct (readDay iso) as [[[[y mo] dd] s1]|]; simpl in H; [|discriminate].
  destruct (expectChar "T" s1) as [s2|]; simpl in H; [|discriminate].
  destruct (readDigits 2 0 s2) as [[h s3]|] eqn:Hh; simpl in H; [|discriminate].
  destruct (expectChar ":" s3) as [s4|]; simpl in H; [|discriminate].
  destruct (readDigits 2 0 s4) as [[mi s5]|] eqn:Hm; simpl in H; [|discriminate].
  destruct (readSeconds s5) as [[[ss ms] s6]|] eqn:Hs; simpl in H; [|discriminate].
  destruct s6; [|discriminate].
  destruct ((h <=? 23) && (mi <=? 59) && (ss <=? 59)) eqn:Hok; [|discriminate].
  injection H as <-. simpl.
  apply andb_prop in Hok as [Hok Hss]. apply andb_prop in Hok as [Hhh Hmi].
  apply readDigits_range in Hh; [|lia]. apply readDigits_range in Hm; [|lia].
  apply readSeconds_range in Hs. lia.
Qed.

Local Transparent readDigits.

(** *** Reading back a date-time string that was written out *)

Lemma digitValue_digitChar d : 0 ≤ d ≤ 9 → digitValue (Spec.digitChar d) = Some d.
Proof.
  intros Hd.
  assert (d = 0 ∨ d = 1 ∨ d = 2 ∨ d = 3 ∨ d = 4 ∨ d = 5 ∨ d = 6 ∨ d = 7 ∨ d = 8 ∨ d = 9) as H by lia.
  repeat (destruct H as [->|H]; [reflexivity|]). subst. reflexivity.
Qed.

Lemma append_String c s t : String c s +:+ t = String c (s +:+ t).
Proof. reflexivity. Qed.

Lemma append_Empty t : EmptyString +:+ t = t.
Proof. reflexivity. Qed.

Lemma readDigits_String k acc c s :
  readDigits (S k) acc (String c s) =
    match digitValue c with
    | Some d => readDigits k (10 * acc + d) s
    | None => None
    end.
Proof. reflexivity. Qed.

Lemma readDigits_digitChar k acc d s :
  0 ≤ d ≤ 9 →
  readDigits (S k) acc (String (Spec.digitChar d) s) = readDigits k (10 * acc + d) s.
Proof. intros Hd. rewrite readDigits_String, digitValue_digitChar by exact Hd. reflexivity. Qed.

Lemma digit_of_quotient n : 0 ≤ n ≤ 99 → 0 ≤ n / 10 ≤ 9.
Proof.
  intros Hn. split; [apply Z.div_pos; lia|].
  assert (n / 10 < 10) by (apply Z.div_lt_upper_bound; lia). lia.
Qed.

Lemma digit_of_remainder n : 0 ≤ n mod 10 ≤ 9.
Proof. pose proof (Z.mod_pos_bound n 10 ltac:(lia)). lia. Qed.

Local Opaque readDigits Spec.digitChar Z.mul Z.add Z.div Z.modulo.

Lemma readDigits_twoDigits n acc rest :
  0 ≤ n ≤ 99 →
  readDigits 2 acc (Spec.twoDigits n +:+ rest) = Some (100 * acc + n, rest).
Proof.
  intros Hn. unfold Spec.twoDigits. rewrite !append_String, append_Empty.
  rewrite !readDigits_digitChar by auto using digit_of_quotient, digit_of_remainder.
  change (readDigits 0 ?a ?s) with (Some (a, s)).
  f_equal. f_equal. pose proof (Z.div_mod n 10 ltac:(lia)). lia.
Qed.

Lemma readDigits_fourDigits y rest :
  0 ≤ y ≤ 9999 →
  readDigits 4 0 (Spec.fourDigits y +:+ rest) = Some (y, rest).
Proof.
  intros Hy. unfold Spec.fourDigits. rewrite !append_String.
  assert (0 ≤ y / 1000 ≤ 9) as H1.
  { split; [apply Z.div_pos; lia|].
    assert (y / 1000 < 10) by (apply Z.div_lt_upper_bound; lia). lia. }
  rewrite !readDigits_digitChar by auto using digit_of_remainder.
  rewrite readDigits_twoDigits by (pose proof (Z.mod_pos_bound y 100 ltac:(lia)); lia).
  f_equal. f_equal.
  pose proof (Z.div_mod y 100 ltac:(lia)).
  pose proof (Z.div_mod (y / 100) 10 ltac:(lia)).
  replace (y / 1000) with (y / 100 / 10) by (rewrite Z.div_div by lia; reflexivity).
  lia.
Qed.

Lemma readDigits_twoDigits_0 n rest :
  0 ≤ n ≤ 99 → readDigits 2 0 (Spec.twoDigits n +:+ rest) = Some (n, rest).
Proof.
  intros Hn. rewrite readDigits_twoDigits by exact Hn.
  replace (100 * 0 + n) with n by lia. reflexivity.
Qed.

Lemma readDigits_twoDigits_end n :
  0 ≤ n ≤ 99 → readDigits 2 0 (Spec.twoDigits n) = Some (n, EmptyString).
Proof.
  intros Hn. rewrite <- (readDigits_twoDigits_0 n EmptyString Hn).
  unfold Spec.twoDigits. rewrite !append_String, append_Empty. reflexivity.
Qed.

Lemma expectChar_append c rest : expectChar c (String c EmptyString +:+ rest) = Some rest.
Proof.
  rewrite append_String, append_Empty. unfold expectChar.
  rewrite Ascii.eqb_refl. reflexivity.
Qed.

Local Opaque expectChar.

Lemma newDate_isoLocal y mo d h mi :
  0 ≤ y ≤ 9999 → 1 ≤ mo ≤ 12 → 1 ≤ d ≤ daysInMonth y mo → 0 ≤ h ≤ 23 → 0 ≤ mi ≤ 59 →
  newDate (Spec.isoLocal y mo d h mi) = Some (mkDate y (mo - 1) d h mi 0 0).
Proof.
  intros Hy Hmo Hd Hh Hmi.
  assert (daysInMonth y mo ≤ 31) as Hdim.
  { unfold daysInMonth. repeat case_match; lia. }
  assert ((1 <=? mo) && (mo <=? 12) && (1 <=? d) && (d <=? daysInMonth y mo) = true) as Hday.
  { rewrite !andb_true_iff, !Z.leb_le. lia. }
  assert ((h <=? 23) && (mi <=? 59) && (0 <=? 59) = true) as Htime.
  { rewrite !andb_true_iff, !Z.leb_le. lia. }
  unfold newDate, readDay, Spec.isoLocal.
  rewrite readDigits_fourDigits by exact Hy. simpl.
  rewrite expectChar_append. simpl.
  rewrite readDigits_twoDigits_0 by lia. simpl.
  rewrite expectChar_append. simpl.
  rewrite readDigits_twoDigits_0 by lia. simpl.
  rewrite Hday. simpl.
  rewrite expectChar_append. simpl.
  rewrite readDigits_twoDigits_0 by lia. simpl.
  rewrite expectChar_append. simpl.
  rewrite readDigits_twoDigits_end by lia. simpl.
  rewrite Htime. reflexivity.
Qed.

(** The minutes of the day are those written in the string. *)
Lemma getMinutesOfDay_isoLocal y mo d h mi :
  0 ≤ y ≤ 9999 → 1 ≤ mo ≤ 12 → 1 ≤ d ≤ daysInMonth y mo → 0 ≤ h ≤ 23 → 0 ≤ mi ≤ 59 →
  getMinutesOfDay (Spec.isoLocal y mo d h mi) = Some (h * 60 + mi).
Proof.
  intros Hy Hmo Hd Hh Hmi. unfold getMinutesOfDay.
  rewrite newDate_isoLocal by assumption. reflexivity.
Qed.

Local Transparent readDigits Spec.digitChar Z.mul Z.add Z.div Z.modulo expectChar.

End Parsing.

(** ** Time formatting *)

Section Formatting.

(** A check that holds for the first [n] naturals holds for every integer
    from 0 up to [n]. *)
Lemma forallb_below (n : nat) (P : Z → bool) :
  forallb P (map Z.of_nat (seq 0 n)) = true →
  ∀ h, 0 ≤ h < Z.of_nat n → P h = true.
Proof.
  intros Hall h Hh.
  rewrite forallb_forall in Hall. apply Hall.
  apply in_map_iff. exists (Z.to_nat h). split; [lia|].
  apply in_seq. lia.
Qed.

Lemma formatHourLabel_hourLabel h :
  0 ≤ h < 24 → formatHourLabel h = Spec.hourLabel h.
Proof.
  intros Hh. apply String.eqb_eq.
  apply (forallb_below 24 (λ h, String.eqb (formatHourLabel h) (Spec.hourLabel h))).
  - vm_compute. reflexivity.
  - exact Hh.
Qed.

Lemma formatTime_timeLabel d :
  0 ≤ getHours d < 24 → 0 ≤ getMinutes d < 60 →
  formatTime d = Spec.timeLabel (getHours d) (getMinutes d).
Proof.
  intros Hh Hm. destruct d as [y mo dd h mi ss ms]. simpl in *.
  apply String.eqb_eq.
  pose (P := λ h mi, String.eqb (formatTime (mkDate y mo dd h mi ss ms)) (Spec.timeLabel h mi)).
  change (P h mi = true).
  apply (forallb_below 60 (P h)); [|exact Hm].
  revert h Hh.
  apply (forallb_below 24 (λ h, forallb (P h) (map Z.of_nat (seq 0 60)))).
  vm_compute. reflexivity.
Qed.

(** C6. [formatHourLabel] turns an hour of the 24-hour clock into the label
    of the 12-hour clock with its AM/PM suffix, midnight and noon reading
    12: for every hour from 0 to 23 the result is the hour on the 12-hour
    clock, without a leading zero, followed by AM before noon and PM from
    noon on.  In particular 0 gives "12AM", 12 gives "12PM" and 13 gives
    "1PM". *)
Theorem formatHourLabel_twelve_hour_clock :
  (∀ h, 0 ≤ h < 24 → formatHourLabel h = Spec.hourLabel h) ∧
  formatHourLabel 0 = "12AM"%string ∧
  formatHourLabel 12 = "12PM"%string ∧
  formatHourLabel 13 = "1PM"%string.
Proof.
  split; [exact formatHourLabel_hourLabel|].
  repeat split; reflexivity.
Qed.

(** C7. [formatTimeRange] renders a pair of local date-time strings as
    "h:mm AM/PM - h:mm AM/PM": each side is the hour on the 12-hour clock
    without a leading zero, a colon, the minutes padded to two digits, a
    space and the AM/PM suffix, and the two sides are joined by " - ".  In
    particular the range from "2022-01-22T06:00" to "2022-01-22T07:00" is
    "6:00 AM - 7:00 AM". *)
Theorem formatTimeRange_twelve_hour_clock :
  (∀ startIso endIso s e,
     newDate startIso = Some s → newDate endIso = Some e →
     formatTimeRange startIso endIso =
       Some (Spec.timeLabel (getHours s) (getMinutes s) +:+ " - " +:+
             Spec.timeLabel (getHours e) (getMinutes e))) ∧
  formatTimeRange "2022-01-22T06:00" "2022-01-22T07:00" = Some "6:00 AM - 7:00 AM"%string.
Proof.
  split; [|reflexivity].
  intros startIso endIso s e Hs He.
  unfold formatTimeRange. rewrite Hs, He. simpl.
  apply newDate_time_of_day in Hs, He.
  rewrite !formatTime_timeLabel by lia. reflexivity.
Qed.

End Formatting.

(** ** The layout in double precision *)

Section DoublePrecision.

Lemma insertNew_elem h : ∀ seen,
  h ∈ Binary64.insertNew h seen ∧ (∀ c, c ∈ seen → c ∈ Binary64.insertNew h seen).
Proof.
  induction seen as [|x rest [IHh IHc]]; simpl.
  - split; [left|]. intros c Hc. apply elem_of_nil in Hc. contradiction.
  - destruct (Leibniz.eqb h x) eqn:Heq.
    + apply FloatAxioms.Leibniz.eqb_spec in Heq as ->. split; [left|auto].
    + split; [right; exact IHh|].
      intros c Hc. apply elem_of_cons in Hc as [->|Hc]; [left|right; auto].
Qed.

Lemma differences_seen starts : ∀ ends seen c,
  c ∈ seen → c ∈ Binary64.differences starts ends seen.
Proof.
  induction starts as [|x starts IH]; intros ends seen c Hc; simpl; [exact Hc|].
  destruct ends as [|y ends]; [exact Hc|].
  apply IH. apply (proj2 (insertNew_elem _ _)), Hc.
Qed.

Lemma differences_lookup starts : ∀ ends seen i x y,
  starts !! i = Some x → ends !! i = Some y →
  (y - x)%float ∈ Binary64.differences starts ends seen.
Proof.
  induction starts as [|x0 starts IH]; intros ends seen i x y Hx Hy; [discriminate|].
  destruct ends as [|y0 ends]; [discriminate|].
  destruct i as [|i]; simpl in *.
  - injection Hx as ->. injection Hy as ->.
    apply differences_seen. apply (proj1 (insertNew_elem _ _)).
  - eapply IH; eassumption.
Qed.

Lemma table_lookup n i :
  (i < n)%nat → Binary64.table n !! i = Some (Binary64.startPct (Z.of_nat i)).
Proof.
  intros Hi. unfold Binary64.table.
  change (map ?f ?l) with (f <$> l).
  rewrite list_lookup_fmap, lookup_seq_lt by exact Hi. reflexivity.
Qed.

Lemma closeTo_spec m x :
  Binary64.closeTo m x = true →
  ∃ v, Binary64.scaled x = Some v ∧
       Z.abs (1440 * v - m * (100 * Binary64.unit60)) ≤ Binary64.tolerance.
Proof.
  unfold Binary64.closeTo, Binary64.near. intros H.
  destruct (Binary64.scaled x) as [v|]; [|discriminate].
  apply Z.leb_le in H. exists v. auto.
Qed.

Lemma certified_spec m x :
  Binary64.certified m x = true →
  ∃ v, Binary64.scaled x = Some v ∧ 0 ≤ v ∧
       Z.abs (1440 * v - m * (100 * Binary64.unit60)) ≤ Binary64.tolerance.
Proof.
  unfold Binary64.certified, Binary64.near. intros H.
  destruct (Binary64.scaled x) as [v|]; [|discriminate].
  apply andb_prop in H as [H0 Hn]. apply Z.leb_le in H0, Hn.
  exists v. auto.
Qed.

Lemma checkDay_sound (n s e : nat) :
  Binary64.checkDay n = true → (s < n)%nat → (e < n)%nat →
  Binary64.certified (Z.of_nat s) (Binary64.startPct (Z.of_nat s)) = true ∧
  Binary64.closeTo (Z.of_nat e - Z.of_nat s)
    (Binary64.heightPct (Z.of_nat s) (Z.of_nat e)) = true ∧
  ((s ≤ e)%nat →
     Binary64.certified (Z.of_nat e - Z.of_nat s)
       (Binary64.heightPct (Z.of_nat s) (Z.of_nat e)) = true).
Proof.
  intros Hday Hs He. unfold Binary64.checkDay in Hday.
  apply andb_prop in Hday as [Htop Hdiff].
  rewrite forallb_forall in Htop, Hdiff.
  split; [apply Htop, in_seq; lia|].
  assert (∀ d, (d < n)%nat →
            forallb (Binary64.certified (Z.of_nat d))
              (Binary64.differences (Binary64.table n) (drop d (Binary64.table n)) []) = true ∧
            forallb (Binary64.closeTo (- Z.of_nat d))
              (Binary64.differences (drop d (Binary64.table n)) (Binary64.table n) []) = true)
    as Hd.
  { intros d Hlt. apply andb_prop. apply (Hdiff d). apply in_seq. lia. }
  assert ((s ≤ e)%nat →
            Binary64.certified (Z.of_nat e - Z.of_nat s)
              (Binary64.heightPct (Z.of_nat s) (Z.of_nat e)) = true) as Hforward.
  { intros Hle. destruct (Hd (e - s)%nat ltac:(lia)) as [Hfw _].
    rewrite forallb_forall in Hfw.
    replace (Z.of_nat e - Z.of_nat s) with (Z.of_nat (e - s)) by lia.
    apply Hfw. apply list_elem_of_In. unfold Binary64.heightPct.
    apply (differences_lookup _ _ _ s).
    - apply table_lookup. lia.
    - rewrite lookup_drop, table_lookup by lia. do 3 f_equal. lia. }
  split; [|exact Hforward].
  destruct (Nat.le_gt_cases s e) as [Hle|Hgt].
  - specialize (Hforward Hle). unfold Binary64.certified, Binary64.closeTo in *.
    destruct (Binary64.scaled _); [|discriminate].
    apply andb_prop in Hforward. tauto.
  - destruct (Hd (s - e)%nat ltac:(lia)) as [_ Hbw].
    rewrite forallb_forall in Hbw.
    replace (Z.of_nat e - Z.of_nat s) with (- Z.of_nat (s - e)) by lia.
    apply Hbw. apply list_elem_of_In. unfold Binary64.heightPct.
    apply (differences_lookup _ _ _ e).
    + rewrite lookup_drop, table_lookup by lia. do 3 f_equal. lia.
    + apply table_lookup. lia.
Qed.

Lemma checkDay_all : Binary64.checkDay 1440 = true.
Proof. vm_cast_no_check (eq_refl true). Qed.

Lemma value_scaled x z :
  Binary64.scaled x = Some z → Binary64.value x = Some (z # 1152921504606846976).
Proof. intros H. unfold Binary64.value. rewrite H. reflexivity. Qed.

(** The doubles of the layout against the exact percentages.  For every
    event from minute [s] to minute [e] of a day, the top and the height
    computed in doubles are finite and each is within 2^-44 of the exact
    percentage, (s / 1440) * 100 and ((e - s) / 1440) * 100; the top is at
    least 0; and when the event does not end before it starts, the height is
    at least 0 and top plus height is at most 100. *)
Theorem binary64_layout (s e : Z) :
  0 ≤ s ≤ 1439 → 0 ≤ e ≤ 1439 →
  ∃ t h : Q,
    Binary64.value (Binary64.startPct s) = Some t ∧
    Binary64.value (Binary64.heightPct s e) = Some h ∧
    (Qabs (t - inject_Z s / 1440 * 100) <= 1 # 17592186044416)%Q ∧
    (Qabs (h - inject_Z (e - s) / 1440 * 100) <= 1 # 17592186044416)%Q ∧
    (0 <= t)%Q ∧
    (s ≤ e → (0 <= h)%Q ∧ (t + h <= 100)%Q).
Proof.
  intros Hs He.
  destruct (checkDay_sound 1440 (Z.to_nat s) (Z.to_nat e) checkDay_all)
    as (Htop & Hheight & Hforward); [lia|lia|].
  replace (Z.of_nat (Z.to_nat s)) with s in * by lia.
  replace (Z.of_nat (Z.to_nat e)) with e in * by lia.
  apply certified_spec in Htop as (t & Ht & Ht0 & Htn).
  apply closeTo_spec in Hheight as (h & Hh & Hhn).
  exists (t # 1152921504606846976)%Q, (h # 1152921504606846976)%Q.
  split; [apply value_scaled, Ht|]. split; [apply value_scaled, Hh|].
  assert (∀ v m : Z, Z.abs (1440 * v - m * (100 * Binary64.unit60)) ≤ Binary64.tolerance →
            (Qabs ((v # 1152921504606846976) - inject_Z m / 1440 * 100) <= 1 # 17592186044416)%Q) as Hnear.
  { intros v m Hv. unfold Binary64.unit60, Binary64.tolerance in Hv.
    apply Qabs_Qle_condition.
    assert ((inject_Z m / 1440 * 100 == inject_Z m * (100 # 1440))%Q) as -> by field.
    unfold Qle, Qminus, Qplus, Qopp, Qmult, inject_Z; simpl. lia. }
  split; [apply Hnear, Htn|]. split; [apply Hnear, Hhn|].
  split; [unfold Qle; simpl; lia|].
  intros Hle.
  assert (Z.to_nat s ≤ Z.to_nat e)%nat as Hle' by lia.
  apply Hforward, certified_spec in Hle' as (h' & Hh' & Hh0 & _).
  rewrite Hh in Hh'. injection Hh' as <-.
  unfold Binary64.unit60, Binary64.tolerance in *.
  split; [unfold Qle; simpl; lia|unfold Qle, Qplus; simpl; lia].
Qed.

End DoublePrecision.

(** ** The layout of the timeline *)

Section Layout.

Lemma getMinutesOfDay_newDate iso d :
  newDate iso = Some d → getMinutesOfDay iso = Some (Spec.minutesOfDay d).
Proof. intros H. unfold getMinutesOfDay. rewrite H. reflexivity. Qed.

Lemma eventsLayer_length events : length (eventsLayer events) = length events.
Proof. unfold eventsLayer. apply length_map. Qed.

Lemma eventsLayer_lookup events i :
  eventsLayer events !! i = renderEvent <$> events !! i.
Proof. unfold eventsLayer. apply list_lookup_fmap. Qed.

Lemma renderEvent_geometry event s e :
  newDate (start event) = Some s → newDate (end_ event) = Some e →
  top (renderEvent event) = Some (inject_Z (Spec.minutesOfDay s) / 1440 * 100)%Q ∧
  height (renderEvent event) =
    Some (inject_Z (Spec.minutesOfDay e) / 1440 * 100
          - inject_Z (Spec.minutesOfDay s) / 1440 * 100)%Q.
Proof.
  intros Hs He. unfold renderEvent. simpl.
  rewrite (getMinutesOfDay_newDate _ _ Hs), (getMinutesOfDay_newDate _ _ He).
  split; reflexivity.
Qed.

(** The difference of two percentages is the percentage of the difference. *)
Lemma percent_difference (a b : Z) :
  (inject_Z b / 1440 * 100 - inject_Z a / 1440 * 100 == inject_Z (b - a) / 1440 * 100)%Q.
Proof.
  unfold Z.sub. rewrite inject_Z_plus, inject_Z_opp. field.
Qed.

(** *** The style in doubles, on any host *)

Lemma timeOfDay_range d :
  Host.timeOfDay d = true → 0 ≤ getHours d ≤ 23 ∧ 0 ≤ getMinutes d ≤ 59.
Proof. unfold Host.timeOfDay. intros H. lia. Qed.

Lemma getMinutesOfDay_range newDate iso m :
  Host.wellFormed newDate → Host.getMinutesOfDay newDate iso = Some m → 0 ≤ m ≤ 1439.
Proof.
  intros Hw Hm. unfold Host.getMinutesOfDay in Hm.
  destruct (newDate iso) as [d|] eqn:Hd; [|discriminate].
  simpl in Hm. injection Hm as <-.
  apply Hw, timeOfDay_range in Hd. lia.
Qed.

Lemma local_wellFormed zone : Host.wellFormed (Host.local zone).
Proof.
  intros iso d. unfold Host.local.
  destruct (newDate iso) as [written|]; [|discriminate]. simpl.
  destruct (Host.timeOfDay (zone written)) eqn:Ht; [|discriminate].
  intros H. injection H as <-. exact Ht.
Qed.

(** On a host whose clock never changes the dates are those of [JS.newDate]. *)
Lemma local_steady iso : Host.local Host.steady iso = newDate iso.
Proof.
  unfold Host.local, Host.steady.
  destruct (newDate iso) as [d|] eqn:Hd; [|reflexivity]. simpl.
  apply newDate_time_of_day in Hd.
  assert (Host.timeOfDay d = true) as -> by (unfold Host.timeOfDay; lia).
  reflexivity.
Qed.

Lemma renderEvent_doubles newDate event sm em :
  Host.getMinutesOfDay newDate (start event) = Some sm →
  Host.getMinutesOfDay newDate (end_ event) = Some em →
  Host.renderEvent newDate event =
    Some (Binary64.startPct sm, Binary64.heightPct sm em).
Proof. intros Hs He. unfold Host.renderEvent. rewrite Hs, He. reflexivity. Qed.

(** C1, as the code has it.  On any host, for every event of the list whose
    start and end strings are read as dates, the block rendered for it has
    as top offset the double (start-minutes-of-day / 1440) * 100 and as
    height the difference, in doubles, of the percentage of the end and the
    percentage of the start; the two are finite and within 2^-44 of the
    exact percentages (start-minutes-of-day / 1440) * 100 and
    ((end-minutes-of-day - start-minutes-of-day) / 1440) * 100, the minutes
    of the day being those [getMinutesOfDay] takes from the event's start
    and end strings. *)
Theorem eventsLayer_block_geometry
    (newDate : Host.Reader) (events : list DailyEvent) (i : nat) (event : DailyEvent)
    (sm em : Z) :
  Host.wellFormed newDate →
  events !! i = Some event →
  Host.getMinutesOfDay newDate (start event) = Some sm →
  Host.getMinutesOfDay newDate (end_ event) = Some em →
  ∃ (t h : float) (tq hq : Q),
    Host.eventsLayer newDate events !! i = Some (Some (t, h)) ∧
    t = (Binary64.ofInt sm / 1440 * 100)%float ∧
    h = (Binary64.ofInt em / 1440 * 100 - Binary64.ofInt sm / 1440 * 100)%float ∧
    Binary64.value t = Some tq ∧ Binary64.value h = Some hq ∧
    (Qabs (tq - inject_Z sm / 1440 * 100) <= 1 # 17592186044416)%Q ∧
    (Qabs (hq - inject_Z (em - sm) / 1440 * 100) <= 1 # 17592186044416)%Q.
Proof.
  intros Hw Hi Hs He.
  pose proof (getMinutesOfDay_range _ _ _ Hw Hs) as Hsr.
  pose proof (getMinutesOfDay_range _ _ _ Hw He) as Her.
  destruct (binary64_layout sm em Hsr Her) as (tq & hq & Hvt & Hvh & Hnt & Hnh & _).
  exists (Binary64.startPct sm), (Binary64.heightPct sm em), tq, hq.
  split.
  { unfold Host.eventsLayer. rewrite list_lookup_fmap, Hi. simpl.
    rewrite (renderEvent_doubles _ _ _ _ Hs He). reflexivity. }
  split; [reflexivity|]. split; [reflexivity|].
  split; [exact Hvt|]. split; [exact Hvh|]. split; [exact Hnt|exact Hnh].
Qed.

(** The second event of the sample page, from 07:30 to 09:00, on a host in
    New York. *)
Lemma eventsLayer_block_geometry_example :
  ∃ (t h : float) (tq hq : Q),
    Host.eventsLayer (Host.local Host.newYork2022) (DailyPage.events "2022-01-22") !! 1%nat
      = Some (Some (t, h)) ∧
    t = (Binary64.ofInt 450 / 1440 * 100)%float ∧
    h = (Binary64.ofInt 540 / 1440 * 100 - Binary64.ofInt 450 / 1440 * 100)%float ∧
    Binary64.value t = Some tq ∧ Binary64.value h = Some hq ∧
    (Qabs (tq - inject_Z 450 / 1440 * 100) <= 1 # 17592186044416)%Q ∧
    (Qabs (hq - inject_Z (540 - 450) / 1440 * 100) <= 1 # 17592186044416)%Q.
Proof.
  apply (eventsLayer_block_geometry (Host.local Host.newYork2022)
           (DailyPage.events "2022-01-22") 1
           (mkEvent (IdNumber 2) "Flight to Paris" (Some "Departing from JFK"%string)
              "2022-01-22T07:30" "2022-01-22T09:00" None Moderate) 450 540).
  - apply local_wellFormed.
  - reflexivity.
  - reflexivity.
  - reflexivity.
Defined.

(** C1, as it is stated, fails for the breakfast of the sample page, from
    06:00 to 07:00: the height the code computes, the difference of the
    two percentages in doubles, is neither the exact ((420 - 360) / 1440)
    * 100 nor that expression evaluated in doubles. *)
Lemma breakfast_height_is_not_the_formula :
  let breakfast :=
    mkEvent (IdNumber 1) "Breakfast" (Some "Eggs and toast"%string)
      "2022-01-22T06:00" "2022-01-22T07:00" None High in
  ∃ (t h : float) (hq : Q),
    Host.getMinutesOfDay (Host.local Host.steady) (start breakfast) = Some 360 ∧
    Host.getMinutesOfDay (Host.local Host.steady) (end_ breakfast) = Some 420 ∧
    Host.renderEvent (Host.local Host.steady) breakfast = Some (t, h) ∧
    Binary64.value h = Some hq ∧
    ¬ (hq == inject_Z (420 - 360) / 1440 * 100)%Q ∧
    Binary64.value h ≠ Binary64.value (Binary64.ofInt (420 - 360) / 1440 * 100)%float.
Proof.
  cbv zeta. eexists _, _, _.
  split; [vm_compute; reflexivity|]. split; [vm_compute; reflexivity|].
  split; [vm_compute; reflexivity|]. split; [vm_compute; reflexivity|].
  split; [vm_compute; discriminate|vm_compute; discriminate].
Qed.

(** Two instants of one day are ordered as their minutes of the day, up to
    the seconds within a minute. *)
Lemma before_same_day date a b isoA isoB :
  newDate isoA = Some a → newDate isoB = Some b →
  Spec.onDay date a → Spec.onDay date b → Spec.before a b →
  Spec.minutesOfDay a ≤ Spec.minutesOfDay b.
Proof.
  intros Ha Hb Hda Hdb Hlt.
  apply newDate_time_of_day in Ha, Hb.
  unfold Spec.onDay in *. rewrite Hda in Hdb. injection Hdb as Hy Hm Hd.
  unfold Spec.before, Spec.dayNumber, Spec.msOfDay in Hlt.
  unfold Spec.minutesOfDay. lia.
Qed.

(** C3. For an event that starts strictly before it ends, with start and
    end both within the viewed day, the top percentage and the height
    percentage are numbers, the height is at least 0, and top plus height
    lies between 0 and 100 (as does the top itself).  This holds of the
    exact percentages and of the doubles that JavaScript computes. *)
Theorem block_within_timeline (date : string) (event : DailyEvent) (s e : Date) :
  newDate (start event) = Some s →
  newDate (end_ event) = Some e →
  Spec.onDay date s → Spec.onDay date e →
  Spec.before s e →
  (∃ t h,
     top (renderEvent event) = Some t ∧ height (renderEvent event) = Some h ∧
     (0 <= h)%Q ∧ (0 <= t)%Q ∧ (0 <= t + h)%Q ∧ (t + h <= 100)%Q) ∧
  (∃ t h,
     Binary64.value (Binary64.startPct (Spec.minutesOfDay s)) = Some t ∧
     Binary64.value
       (Binary64.heightPct (Spec.minutesOfDay s) (Spec.minutesOfDay e)) = Some h ∧
     (0 <= h)%Q ∧ (0 <= t)%Q ∧ (0 <= t + h)%Q ∧ (t + h <= 100)%Q).
Proof.
  intros Hs He Hds Hde Hlt.
  pose proof (before_same_day date s e _ _ Hs He Hds Hde Hlt) as Hle.
  destruct (renderEvent_geometry event s e Hs He) as [Ht Hh].
  apply newDate_time_of_day in Hs, He.
  assert (0 ≤ Spec.minutesOfDay s) as Hs0 by (unfold Spec.minutesOfDay; lia).
  assert (Spec.minutesOfDay e ≤ 1439) as He1 by (unfold Spec.minutesOfDay; lia).
  split.
  - eexists _, _. split; [exact Ht|]. split; [exact Hh|].
    rewrite percent_difference.
    assert (∀ m : Z, (inject_Z m / 1440 * 100 == inject_Z m * (100 # 1440))%Q) as Hpct
      by (intros m; field).
    assert ((inject_Z (Spec.minutesOfDay s) / 1440 * 100
             + inject_Z (Spec.minutesOfDay e - Spec.minutesOfDay s) / 1440 * 100
             == inject_Z (Spec.minutesOfDay e) / 1440 * 100)%Q) as Hsum.
    { rewrite <- percent_difference. ring. }
    rewrite Hsum, !Hpct.
    set (a := Spec.minutesOfDay s) in *. set (b := Spec.minutesOfDay e) in *.
    unfold Qle, Qmult, inject_Z; simpl.
    repeat split; lia.
  - destruct (binary64_layout (Spec.minutesOfDay s) (Spec.minutesOfDay e))
      as (t & h & Hvt & Hvh & _ & _ & Ht0 & Hfw); [lia|lia|].
    destruct (Hfw Hle) as [Hh0 Hsum].
    exists t, h. repeat split; try assumption.
    apply (Qle_trans _ (0 + 0)); [discriminate|apply Qplus_le_compat; assumption].
Qed.

(** The dinner of the sample page, from 19:00 to 20:30 of the viewed day. *)
Lemma block_within_timeline_example :
  ∃ t h,
    top (renderEvent (mkEvent (IdNumber 3) "Dinner Reservation" None
           "2022-01-22T19:00" "2022-01-22T20:30" None Low)) = Some t ∧
    height (renderEvent (mkEvent (IdNumber 3) "Dinner Reservation" None
           "2022-01-22T19:00" "2022-01-22T20:30" None Low)) = Some h ∧
    (0 <= h)%Q ∧ (0 <= t)%Q ∧ (0 <= t + h)%Q ∧ (t + h <= 100)%Q.
Proof.
  apply (proj1 (block_within_timeline "2022-01-22"
           (mkEvent (IdNumber 3) "Dinner Reservation" None
              "2022-01-22T19:00" "2022-01-22T20:30" None Low)
           (mkDate 2022 0 22 19 0 0 0) (mkDate 2022 0 22 20 30 0 0)
           eq_refl eq_refl eq_refl eq_refl
           (or_intror (conj eq_refl eq_refl)))).
Defined.

End Layout.

(** ** Grouping by priority *)

Section Grouping.

Lemma bucket_pushEvent m evt level :
  bucket (pushEvent m evt) level =
    bucket m level ++ (if decide (priorityLevel evt = level) then [evt] else []).
Proof.
  unfold pushEvent.
  destruct (priorityLevel evt), level; simpl;
    repeat case_decide; try congruence; rewrite ?app_nil_r; reflexivity.
Qed.

Lemma bucket_fold_pushEvent events : ∀ m level,
  bucket (fold_left pushEvent events m) level =
    bucket m level ++ filter (λ evt, priorityLevel evt = level) events.
Proof.
  induction events as [|evt events IH]; intros m level; simpl.
  - rewrite app_nil_r. reflexivity.
  - rewrite IH, bucket_pushEvent, <- app_assoc. f_equal.
    unfold filter at 2; simpl. fold (filter (λ evt, priorityLevel evt = level) events).
    destruct (decide (priorityLevel evt = level)); reflexivity.
Qed.

(** Each bucket is the input list restricted to one priority level. *)
Lemma bucket_priorityMap events level :
  bucket (priorityMap events) level = filter (λ evt, priorityLevel evt = level) events.
Proof. unfold priorityMap. rewrite bucket_fold_pushEvent. destruct level; reflexivity. Qed.

Lemma three_way_split (events : list DailyEvent) :
  filter (λ evt, priorityLevel evt = High) events ++
  filter (λ evt, priorityLevel evt = Moderate) events ++
  filter (λ evt, priorityLevel evt = Low) events ≡ₚ events.
Proof.
  induction events as [|evt events IH]; [reflexivity|].
  rewrite !filter_cons.
  destruct (priorityLevel evt) eqn:Hp; repeat case_decide; try congruence; simpl.
  - rewrite IH. reflexivity.
  - rewrite <- Permutation_middle, IH. reflexivity.
  - rewrite app_assoc, <- Permutation_middle, <- app_assoc, IH. reflexivity.
Qed.

(** C2. Grouping by priority level is a total, disjoint cover of the input
    that keeps its order, whatever the input list: each bucket is the
    sub-list of the input with that level, taken in input order; the three
    buckets together hold exactly the occurrences of the input; every event
    of the input is in the bucket of its level; an event found in a bucket
    is an event of the input; and no event is in two buckets. *)
Theorem priorityMap_partition (events : list DailyEvent) :
  let m := priorityMap events in
  (∀ level, bucket m level = filter (λ evt, priorityLevel evt = level) events) ∧
  (∀ level, sublist (bucket m level) events) ∧
  bucket m High ++ bucket m Moderate ++ bucket m Low ≡ₚ events ∧
  (∀ evt, evt ∈ events → evt ∈ bucket m (priorityLevel evt)) ∧
  (∀ evt level, evt ∈ bucket m level → evt ∈ events) ∧
  (∀ evt level level', evt ∈ bucket m level → evt ∈ bucket m level' → level = level').
Proof.
  intros m. subst m.
  split; [apply bucket_priorityMap|].
  split; [intros level; rewrite bucket_priorityMap; apply sublist_filter|].
  split; [rewrite !bucket_priorityMap; apply three_way_split|].
  split; [intros evt Hin; rewrite bucket_priorityMap; apply list_elem_of_filter; auto|].
  split.
  - intros evt level Hin. rewrite bucket_priorityMap in Hin.
    apply list_elem_of_filter in Hin. tauto.
  - intros evt level level' H1 H2. rewrite bucket_priorityMap in H1, H2.
    apply list_elem_of_filter in H1, H2. destruct H1 as [<- _], H2 as [<- _]. reflexivity.
Qed.

(** With no events the timeline has no block and every group shows its
    placeholder. *)
Lemma empty_day :
  eventsLayer [] = [] ∧
  sidePanel [] = [ Placeholder "No high priority events.";
                   Placeholder "No moderate priority events.";
                   Placeholder "No low priority events." ].
Proof. split; reflexivity. Qed.

End Grouping.

(** ** The mounted view: scrolling *)

Section Scrolling.

Variable wall : Z → Now.

Lemma clamp_within lo hi x : (lo <= hi)%Q → (lo <= Spec.clamp lo hi x)%Q ∧ (Spec.clamp lo hi x <= hi)%Q.
Proof.
  intros Hle. unfold Spec.clamp. split; [apply Q.le_max_l|].
  apply Q.max_lub; [exact Hle|apply Q.le_min_r].
Qed.

Lemma scrollToNow_today v container :
  isToday v = true → scrollContainerRef v = Some container →
  scrollToNow wall v =
    setContainer
      (Some (mkContainer (scrollHeight container) (clientHeight container)
               (Spec.nowPosition (wall (clock v)) container))) v.
Proof.
  intros Ht Hc. unfold scrollToNow. rewrite Hc, Ht. reflexivity.
Qed.


Lemma mount_today date label events box t0 :
  date = todayIso (wall t0) →
  mount wall date label events box t0 =
    mkView date label events (computeNowFraction (wall t0)) true
      (Some (mkContainer (scrollHeight box) (clientHeight box) (Spec.nowPosition (wall t0) box)))
      (attachRefs 0 events ∅) (attachClasses 0 events ∅) [] (Some (t0 + 60000)) [] t0.
Proof.
  intros ->. unfold mount, effect. simpl. rewrite String.eqb_refl. reflexivity.
Qed.

Lemma mount_not_today date label events box t0 :
  date ≠ todayIso (wall t0) →
  mount wall date label events box t0 =
    mkView date label events (computeNowFraction (wall t0)) false (Some box)
      (attachRefs 0 events ∅) (attachClasses 0 events ∅) [] None [] t0.
Proof.
  intros Hne. apply String.eqb_neq in Hne.
  unfold mount, effect. simpl. rewrite Hne. reflexivity.
Qed.

(** C9. Both the scroll made when the view mounts on today's date and the
    Today button (whose handler is [scrollToNow]) set the container's scroll
    position to (current-minutes-of-day / 1440) times the scrollable height
    of the container (its scroll height less its client height, the
    [maxScroll] of the source), clamped to the interval from 0 to
    [maxScroll]; the clamped value lies in that interval. *)
Theorem scroll_position_is_fraction_of_day
    (date label : string) (events : list DailyEvent) (box : Container) (t0 : Z)
    (v : View) (container : Container) :
  (date = todayIso (wall t0) →
     scrollContainerRef (mount wall date label events box t0) =
       Some (mkContainer (scrollHeight box) (clientHeight box)
               (Spec.nowPosition (wall t0) box))) ∧
  (isToday v = true → scrollContainerRef v = Some container →
     step wall v ClickToday =
       setContainer
         (Some (mkContainer (scrollHeight container) (clientHeight container)
                  (Spec.nowPosition (wall (clock v)) container))) v) ∧
  (∀ now c, (0 <= Spec.scrollableHeight c)%Q →
     (0 <= Spec.nowPosition now c)%Q ∧ (Spec.nowPosition now c <= Spec.scrollableHeight c)%Q).
Proof.
  split; [intros Hd; rewrite (mount_today _ _ _ _ _ Hd); reflexivity|].
  split; [intros Ht Hc; simpl; apply scrollToNow_today; assumption|].
  intros now c Hc. unfold Spec.nowPosition. apply clamp_within. exact Hc.
Qed.

End Scrolling.

(** ** The mounted view: what the handlers leave alone *)

Section Frames.

Variable wall : Z → Now.

Lemma handlePriorityClick_timing i v : timing (handlePriorityClick i v) = timing v.
Proof.
  unfold handlePriorityClick.
  destruct (eventRefs v !! propertyKey i); [|reflexivity].
  destruct (scrollContainerRef v); reflexivity.
Qed.

Lemma scrollToNow_timing v : timing (scrollToNow wall v) = timing v.
Proof.
  unfold scrollToNow.
  destruct (scrollContainerRef v); [|reflexivity].
  destruct (isToday v); reflexivity.
Qed.

Lemma scrollToNow_decor v : decor (scrollToNow wall v) = decor v.
Proof.
  unfold scrollToNow.
  destruct (scrollContainerRef v); [|reflexivity].
  destruct (isToday v); reflexivity.
Qed.

Lemma scrollToNow_eventRefs v : eventRefs (scrollToNow wall v) = eventRefs v.
Proof.
  unfold scrollToNow.
  destruct (scrollContainerRef v); [|reflexivity].
  destruct (isToday v); reflexivity.
Qed.

Lemma fold_onTimeout_timing due : ∀ v,
  timing (fold_left (λ w (p : Z * Element), onTimeout p.2 w) due v) = timing v.
Proof.
  induction due as [|p due IH]; intros v; simpl; [reflexivity|].
  rewrite IH. reflexivity.
Qed.

Lemma runTimeouts_timing v : timing (runTimeouts v) = timing v.
Proof. unfold runTimeouts. rewrite fold_onTimeout_timing. reflexivity. Qed.

Lemma effect_decor v : decor (effect wall v) = decor v.
Proof.
  unfold effect.
  destruct (isToday v) eqn:Ht.
  - assert (isToday (scrollToNow wall v) = true) as ->.
    { pose proof (scrollToNow_timing v) as H. unfold timing in H. congruence. }
    pose proof (scrollToNow_decor v) as H. unfold decor in *. simpl. exact H.
  - rewrite Ht. reflexivity.
Qed.

Lemma rerender_decor v : decor (rerender wall v) = decor v.
Proof.
  unfold rerender.
  destruct (Bool.eqb _ _); [reflexivity|].
  rewrite effect_decor. reflexivity.
Qed.

Lemma runInterval_decor v : decor (runInterval wall v) = decor v.
Proof.
  unfold runInterval.
  destruct (intervalId v) as [due|]; [|reflexivity].
  destruct (due <=? clock v); [|reflexivity].
  unfold onInterval, setNowFraction.
  destruct (Qeq_bool _ _); [reflexivity|].
  rewrite rerender_decor. reflexivity.
Qed.

Lemma effect_eventRefs v : eventRefs (effect wall v) = eventRefs v.
Proof.
  unfold effect.
  destruct (isToday v) eqn:Ht.
  - assert (isToday (scrollToNow wall v) = true) as ->.
    { pose proof (scrollToNow_timing v) as H. unfold timing in H. congruence. }
    simpl. apply scrollToNow_eventRefs.
  - rewrite Ht. reflexivity.
Qed.

End Frames.

(** ** The mounted view: the current-time marker *)

Section Marker.

Variable wall : Z → Now.

Lemma computeNowFraction_Qeq a b :
  (computeNowFraction a == computeNowFraction b)%Q →
  computeNowFraction a = computeNowFraction b.
Proof.
  unfold computeNowFraction, Qeq, Qdiv, Qmult, Qinv, inject_Z. simpl.
  intros H. f_equal. lia.
Qed.

(** *** A view that does not show today *)

Lemma offToday_timing v w : timing v = timing w → offToday w → offToday v.
Proof. unfold timing, offToday. intros H [? ?]. split; congruence. Qed.

Lemma tick_offToday v : offToday v → offToday (tick wall v).
Proof.
  intros [Ht Hi]. unfold tick, runInterval.
  pose proof (runTimeouts_timing (setClock (clock v + 1) v)) as H.
  unfold timing in H. simpl in H. injection H as _ _ Ht' Hi' _.
  rewrite Hi', Hi. split; congruence.
Qed.

Lemma elapse_offToday ms : ∀ v, offToday v → offToday (elapse wall ms v).
Proof.
  induction ms as [|ms IH]; intros v Hv; simpl; [exact Hv|].
  apply IH, tick_offToday, Hv.
Qed.

Lemma step_offToday v a : offToday v → offToday (step wall v a).
Proof.
  intros Hv. destruct a as [i| |ms].
  - eapply offToday_timing; [apply handlePriorityClick_timing|exact Hv].
  - eapply offToday_timing; [apply scrollToNow_timing|exact Hv].
  - apply elapse_offToday, Hv.
Qed.

Lemma run_offToday actions : ∀ v, offToday v → offToday (run wall actions v).
Proof.
  induction actions as [|a actions IH]; intros v Hv; simpl; [exact Hv|].
  apply IH, step_offToday, Hv.
Qed.

(** *** A view that shows today, [e] milliseconds after it was mounted *)

Lemma tick_onToday d t0 e v :
  0 ≤ e → todayIso (wall (t0 + (e + 1))) = d →
  onToday wall d t0 e v → onToday wall d t0 (e + 1) (tick wall v).
Proof.
  intros He Hd Hv. unfold onToday in *.
  unfold tick, runInterval.
  pose proof (runTimeouts_timing (setClock (clock v + 1) v)) as Hr.
  set (v1 := runTimeouts (setClock (clock v + 1) v)) in *.
  unfold timing in Hv, Hr. simpl in Hr.
  injection Hv as Hdate Hnf Htoday Hint Hclock.
  injection Hr as Hdate1 Hnf1 Htoday1 Hint1 Hclock1.
  rewrite Hint1, Hint, Hclock1, Hclock.
  pose proof (Z.div_mod e 60000 ltac:(lia)) as Hdm.
  pose proof (Z.mod_pos_bound e 60000 ltac:(lia)) as Hmb.
  destruct (t0 + 60000 * (e / 60000 + 1) <=? t0 + e + 1) eqn:Hdue.
  - apply Z.leb_le in Hdue.
    assert ((e + 1) / 60000 = e / 60000 + 1) as Hq.
    { symmetry. apply (Z.div_unique (e + 1) 60000 (e / 60000 + 1) 0); lia. }
    assert (t0 + 60000 * ((e + 1) / 60000) = t0 + (e + 1)) as Hnow by lia.
    rewrite Hq, <- Hq, Hnow.
    unfold onInterval, setNowFraction. simpl.
    rewrite Hclock1, Hclock, Hnf1, Hnf.
    replace (t0 + e + 1) with (t0 + (e + 1)) by lia.
    destruct (Qeq_bool _ _) eqn:Hsame.
    + apply Qeq_bool_iff, computeNowFraction_Qeq in Hsame.
      unfold timing. simpl. rewrite Hdate1, Hnf1, Htoday1, Hclock1, Hdate, Hnf, Htoday, Hclock.
      rewrite <- Hsame.
      replace (t0 + (e + 1) + 60000) with (t0 + 60000 * ((e + 1) / 60000 + 1)) by lia.
      replace (t0 + e + 1) with (t0 + (e + 1)) by lia. reflexivity.
    + unfold rerender. simpl.
      rewrite Hdate1, Hdate, Hclock1, Hclock, Htoday1, Htoday.
      replace (t0 + e + 1) with (t0 + (e + 1)) by lia.
      rewrite Hd, String.eqb_refl. simpl.
      unfold timing. simpl. rewrite Hdate1, Htoday1, Hclock1, Hdate, Htoday, Hclock.
      replace (t0 + (e + 1) + 60000) with (t0 + 60000 * ((e + 1) / 60000 + 1)) by lia.
      replace (t0 + e + 1) with (t0 + (e + 1)) by lia. reflexivity.
  - apply Z.leb_gt in Hdue.
    assert ((e + 1) / 60000 = e / 60000) as Hq.
    { symmetry. apply (Z.div_unique (e + 1) 60000 (e / 60000) (e mod 60000 + 1)); lia. }
    rewrite Hq. unfold timing.
    rewrite Hdate1, Hnf1, Htoday1, Hint1, Hclock1, Hdate, Hnf, Htoday, Hint, Hclock.
    replace (t0 + e + 1) with (t0 + (e + 1)) by lia. reflexivity.
Qed.

Lemma elapse_onToday d t0 ms : ∀ e v,
  0 ≤ e →
  (∀ k, e < k ≤ e + Z.of_nat ms → todayIso (wall (t0 + k)) = d) →
  onToday wall d t0 e v → onToday wall d t0 (e + Z.of_nat ms) (elapse wall ms v).
Proof.
  induction ms as [|ms IH]; intros e v He Hd Hv.
  - simpl. rewrite Z.add_0_r. exact Hv.
  - simpl elapse.
    replace (e + Z.of_nat (S ms)) with ((e + 1) + Z.of_nat ms) by lia.
    apply IH; [lia| |].
    + intros k Hk. apply Hd. lia.
    + apply tick_onToday; [exact He| |exact Hv]. apply Hd. lia.
Qed.

Lemma run_onToday d t0 actions : ∀ e v,
  0 ≤ e →
  (∀ k, e < k ≤ e + Z.of_nat (duration actions) → todayIso (wall (t0 + k)) = d) →
  onToday wall d t0 e v → onToday wall d t0 (e + Z.of_nat (duration actions)) (run wall actions v).
Proof.
  induction actions as [|a actions IH]; intros e v He Hd Hv.
  - simpl. rewrite Z.add_0_r. exact Hv.
  - destruct a as [i| |ms]; simpl run; simpl duration.
    + apply IH; [exact He|exact Hd|].
      unfold onToday. simpl. rewrite handlePriorityClick_timing. exact Hv.
    + apply IH; [exact He|exact Hd|].
      unfold onToday. simpl. rewrite scrollToNow_timing. exact Hv.
    + simpl in Hd.
      replace (e + Z.of_nat (ms + duration actions))
        with ((e + Z.of_nat ms) + Z.of_nat (duration actions)) by lia.
      apply IH; [lia| |].
      * intros k Hk. apply Hd. lia.
      * apply elapse_onToday; [exact He| |exact Hv]. intros k Hk. apply Hd. lia.
Qed.


Lemma mount_offToday date label events box t0 :
  date ≠ todayIso (wall t0) →
  offToday (mount wall date label events box t0).
Proof.
  intros Hd. rewrite (mount_not_today wall _ _ _ _ _ Hd). split; reflexivity.
Qed.

(** A view mounted on another day never shows today, so its Today button
    never scrolls. *)
Lemma off_today_forever date label events box t0 actions :
  date ≠ todayIso (wall t0) →
  isToday (run wall actions (mount wall date label events box t0)) = false.
Proof.
  intros Hd. apply (run_offToday actions), mount_offToday, Hd.
Qed.

End Marker.

(** The sample page scrolls to half past six when it mounts. *)
Lemma scroll_position_is_fraction_of_day_example :
  scrollContainerRef Sample.page =
    Some (mkContainer 2688 800 (Spec.nowPosition (Sample.wall Sample.morning) Sample.container)).
Proof.
  apply (proj1 (scroll_position_is_fraction_of_day Sample.wall "2022-01-22" "Saturday"
                  (DailyPage.events "2022-01-22") Sample.container Sample.morning
                  Sample.page Sample.container)).
  reflexivity.
Defined.

(** ** The mounted view: clicks on the priority groups *)

Section Registry.

Variable wall : Z → Now.

Lemma attachRefs_lookup_other k evts : ∀ n refs,
  (∀ evt, evt ∈ evts → propertyKey (id evt) ≠ k) →
  attachRefs n evts refs !! k = refs !! k.
Proof.
  induction evts as [|evt evts IH]; intros n refs Hk; simpl; [reflexivity|].
  rewrite IH.
  - apply lookup_insert_ne. apply Hk. left.
  - intros e He. apply Hk. right. exact He.
Qed.

(** With distinct property keys, the [j]-th event is registered with the
    [j]-th element. *)
Lemma attachRefs_lookup evts : ∀ n refs j evt,
  NoDup (map (λ e, propertyKey (id e)) evts) →
  evts !! j = Some evt →
  attachRefs n evts refs !! propertyKey (id evt) = Some (n + j)%nat.
Proof.
  induction evts as [|e evts IH]; intros n refs j evt Hnd Hj; [discriminate|].
  simpl in Hnd. apply NoDup_cons in Hnd as [Hfresh Hnd].
  destruct j as [|j]; simpl in *.
  - injection Hj as ->.
    rewrite attachRefs_lookup_other.
    + rewrite lookup_insert_eq. f_equal. lia.
    + intros e' He' Heq. apply Hfresh. rewrite <- Heq.
      apply list_elem_of_fmap. exists e'. split; [reflexivity|exact He'].
  - rewrite (IH (S n) _ j evt Hnd Hj). f_equal. lia.
Qed.

Lemma handlePriorityClick_eventRefs i v :
  eventRefs (handlePriorityClick i v) = eventRefs v.
Proof.
  unfold handlePriorityClick.
  destruct (eventRefs v !! propertyKey i); [|reflexivity].
  destruct (scrollContainerRef v); reflexivity.
Qed.

Lemma fold_onTimeout_eventRefs due : ∀ v,
  eventRefs (fold_left (λ w (p : Z * Element), onTimeout p.2 w) due v) = eventRefs v.
Proof.
  induction due as [|p due IH]; intros v; simpl; [reflexivity|].
  rewrite IH. reflexivity.
Qed.

Lemma tick_eventRefs v : eventRefs (tick wall v) = eventRefs v.
Proof.
  unfold tick, runInterval.
  set (v1 := runTimeouts (setClock (clock v + 1) v)).
  assert (eventRefs v1 = eventRefs v) as H1.
  { unfold v1, runTimeouts. rewrite fold_onTimeout_eventRefs. reflexivity. }
  destruct (intervalId v1) as [due|]; [|exact H1].
  destruct (due <=? clock v1); [|exact H1].
  unfold onInterval, setNowFraction.
  destruct (Qeq_bool _ _); [exact H1|].
  unfold rerender.
  destruct (Bool.eqb _ _); [exact H1|].
  rewrite effect_eventRefs. exact H1.
Qed.

Lemma elapse_eventRefs ms : ∀ v, eventRefs (elapse wall ms v) = eventRefs v.
Proof.
  induction ms as [|ms IH]; intros v; simpl; [reflexivity|].
  rewrite IH. apply tick_eventRefs.
Qed.

Lemma run_eventRefs actions : ∀ v, eventRefs (run wall actions v) = eventRefs v.
Proof.
  induction actions as [|a actions IH]; intros v; simpl; [reflexivity|].
  rewrite IH. destruct a; simpl.
  - apply handlePriorityClick_eventRefs.
  - apply scrollToNow_eventRefs.
  - apply elapse_eventRefs.
Qed.

Lemma mount_eventRefs date label events box t0 :
  eventRefs (mount wall date label events box t0) = attachRefs 0 events ∅.
Proof. unfold mount. rewrite effect_eventRefs. reflexivity. Qed.

End Registry.

(** ** The mounted view: the highlight *)

Section Highlight.

Variable wall : Z → Now.

Lemma classListAdd_elem tokens : ∀ cl t,
  t ∈ classListAdd tokens cl ↔ t ∈ cl ∨ t ∈ tokens.
Proof.
  unfold classListAdd.
  induction tokens as [|a tokens IH]; intros cl t; simpl.
  - rewrite elem_of_nil. tauto.
  - rewrite IH, elem_of_cons. case_bool_decide as Ha.
    + split; [tauto|]. intros [?|[->|?]]; auto.
    + rewrite elem_of_app, list_elem_of_singleton. tauto.
Qed.

Lemma classListRemove_elem tokens cl t :
  t ∈ classListRemove tokens cl ↔ t ∈ cl ∧ t ∉ tokens.
Proof. unfold classListRemove. rewrite list_elem_of_filter. tauto. Qed.

Local Opaque classListAdd classListRemove.

Lemma classesOf_insert m v element cl other :
  classesOf (setClassList (<[element := cl]> m) v) other =
    if decide (element = other) then cl else default [] (m !! other).
Proof.
  unfold classesOf. simpl. case_decide as He.
  - subst. rewrite lookup_insert_eq. reflexivity.
  - rewrite lookup_insert_ne by exact He. reflexivity.
Qed.

Lemma onTimeout_classesOf element v other :
  classesOf (onTimeout element v) other =
    if decide (element = other) then classListRemove ringClasses (classesOf v element)
    else classesOf v other.
Proof. unfold onTimeout. rewrite classesOf_insert. reflexivity. Qed.

Lemma onTimeout_plain_same element v : plain (onTimeout element v) element.
Proof.
  unfold plain. apply Forall_forall. intros t Ht.
  rewrite onTimeout_classesOf. rewrite decide_True by reflexivity.
  rewrite classListRemove_elem. tauto.
Qed.

Lemma onTimeout_plain_kept element other v :
  plain v element → plain (onTimeout other v) element.
Proof.
  unfold plain. rewrite !Forall_forall. intros Hp t Ht.
  rewrite onTimeout_classesOf. case_decide as He.
  - subst. rewrite classListRemove_elem. tauto.
  - apply Hp, Ht.
Qed.

Lemma fold_onTimeout_plain_kept element due : ∀ v,
  plain v element →
  plain (fold_left (λ w (p : Z * Element), onTimeout p.2 w) due v) element.
Proof.
  induction due as [|p due IH]; intros v Hv; simpl; [exact Hv|].
  apply IH, onTimeout_plain_kept, Hv.
Qed.

Lemma fold_onTimeout_plain element due : ∀ v,
  (∃ t, (t, element) ∈ due) →
  plain (fold_left (λ w (p : Z * Element), onTimeout p.2 w) due v) element.
Proof.
  induction due as [|p due IH]; intros v [t Ht]; simpl.
  - apply elem_of_nil in Ht. contradiction.
  - apply elem_of_cons in Ht as [<-|Ht].
    + apply fold_onTimeout_plain_kept. simpl. apply onTimeout_plain_same.
    + apply IH. exists t. exact Ht.
Qed.

Lemma fold_onTimeout_classesOf element due : ∀ v,
  (∀ t, (t, element) ∉ due) →
  classesOf (fold_left (λ w (p : Z * Element), onTimeout p.2 w) due v) element =
    classesOf v element.
Proof.
  induction due as [|[t el] due IH]; intros v Hno; simpl; [reflexivity|].
  rewrite IH.
  - rewrite onTimeout_classesOf. rewrite decide_False; [reflexivity|].
    intros ->. apply (Hno t). left.
  - intros t' Ht'. apply (Hno t'). right. exact Ht'.
Qed.

Lemma fold_onTimeout_timeouts due : ∀ v,
  timeouts (fold_left (λ w (p : Z * Element), onTimeout p.2 w) due v) = timeouts v.
Proof.
  induction due as [|p due IH]; intros v; simpl; [reflexivity|].
  rewrite IH. reflexivity.
Qed.

(** *** The two seconds after a click at time [t] *)

Lemma armed_decor t element v w : decor v = decor w → armed t element w → armed t element v.
Proof.
  unfold decor, armed, highlighted, classesOf. intros H Hw.
  injection H as Hc Ht _. rewrite Hc, Ht. exact Hw.
Qed.

Lemma handlePriorityClick_clock i v : clock (handlePriorityClick i v) = clock v.
Proof.
  pose proof (handlePriorityClick_timing i v) as H. unfold timing in H. congruence.
Qed.

Lemma handlePriorityClick_classesOf i element v other :
  eventRefs v !! propertyKey i = Some element →
  is_Some (scrollContainerRef v) →
  classesOf (handlePriorityClick i v) other =
    if decide (element = other) then classListAdd ringClasses (classesOf v element)
    else classesOf v other.
Proof.
  intros Hr [c Hc]. unfold handlePriorityClick. rewrite Hr, Hc.
  unfold classesOf. simpl. case_decide as He.
  - subst. rewrite lookup_insert_eq. reflexivity.
  - rewrite lookup_insert_ne by exact He. reflexivity.
Qed.

Lemma handlePriorityClick_timeouts i element v :
  eventRefs v !! propertyKey i = Some element →
  is_Some (scrollContainerRef v) →
  timeouts (handlePriorityClick i v) = timeouts v ++ [(clock v + 2000, element)].
Proof.
  intros Hr [c Hc]. unfold handlePriorityClick. rewrite Hr, Hc. reflexivity.
Qed.

Lemma handlePriorityClick_idle i v :
  eventRefs v !! propertyKey i = None ∨ scrollContainerRef v = None →
  handlePriorityClick i v = v.
Proof.
  intros H. unfold handlePriorityClick.
  destruct (eventRefs v !! propertyKey i); [|reflexivity].
  destruct (scrollContainerRef v); [|reflexivity].
  destruct H; discriminate.
Qed.

Lemma handlePriorityClick_arms i element v :
  eventRefs v !! propertyKey i = Some element →
  is_Some (scrollContainerRef v) →
  (∀ due, (due, element) ∉ timeouts v) →
  armed (clock v) element (handlePriorityClick i v).
Proof.
  intros Hr Hc Hfree.
  split; [|split].
  - unfold highlighted. apply Forall_forall. intros t Ht.
    rewrite (handlePriorityClick_classesOf _ _ _ _ Hr Hc), decide_True by reflexivity.
    apply classListAdd_elem. right. exact Ht.
  - rewrite (handlePriorityClick_timeouts _ _ _ Hr Hc). apply elem_of_app. right. left.
  - rewrite (handlePriorityClick_timeouts _ _ _ Hr Hc).
    intros due Hdue. apply elem_of_app in Hdue as [Hdue|Hdue].
    + contradiction (Hfree due).
    + apply list_elem_of_singleton in Hdue. injection Hdue as ->. lia.
Qed.

Lemma handlePriorityClick_keeps_armed t element i v :
  t ≤ clock v → armed t element v → armed t element (handlePriorityClick i v).
Proof.
  intros Ht Ha.
  destruct (eventRefs v !! propertyKey i) as [el|] eqn:Hr;
    [|rewrite handlePriorityClick_idle by (left; exact Hr); exact Ha].
  destruct (scrollContainerRef v) as [c|] eqn:Hc;
    [|rewrite handlePriorityClick_idle by (right; exact Hc); exact Ha].
  assert (is_Some (scrollContainerRef v)) as Hc' by (rewrite Hc; eexists; reflexivity).
  destruct Ha as (Hh & Hin & Hmin).
  split; [|split].
  - unfold highlighted in *. rewrite Forall_forall in *. intros tok Htok.
    rewrite (handlePriorityClick_classesOf _ _ _ _ Hr Hc'). case_decide as He.
    + subst. apply classListAdd_elem. right. exact Htok.
    + apply Hh, Htok.
  - rewrite (handlePriorityClick_timeouts _ _ _ Hr Hc'). apply elem_of_app. left. exact Hin.
  - rewrite (handlePriorityClick_timeouts _ _ _ Hr Hc').
    intros due Hdue. apply elem_of_app in Hdue as [Hdue|Hdue].
    + apply Hmin, Hdue.
    + apply list_elem_of_singleton in Hdue. injection Hdue as -> _. lia.
Qed.

Lemma tick_clock v : clock (tick wall v) = clock v + 1.
Proof.
  unfold tick.
  pose proof (runInterval_decor wall (runTimeouts (setClock (clock v + 1) v))) as H1.
  pose proof (runTimeouts_timing (setClock (clock v + 1) v)) as H2.
  unfold decor in H1. unfold timing in H2. simpl in H2. congruence.
Qed.

Lemma tick_keeps_armed t element v :
  clock v + 1 < t + 2000 → armed t element v → armed t element (tick wall v).
Proof.
  intros Hc (Hh & Hin & Hmin). unfold tick.
  eapply armed_decor; [apply runInterval_decor|].
  unfold runTimeouts. simpl.
  split; [|split].
  - unfold highlighted. rewrite fold_onTimeout_classesOf; [exact Hh|].
    intros due Hdue. apply list_elem_of_filter in Hdue as [Hdue Hin'].
    simpl in Hdue. apply Hmin in Hin'. lia.
  - rewrite fold_onTimeout_timeouts. simpl.
    apply list_elem_of_filter. split; [simpl; lia|exact Hin].
  - rewrite fold_onTimeout_timeouts. simpl. intros due Hdue.
    apply list_elem_of_filter in Hdue as [_ Hdue]. apply Hmin, Hdue.
Qed.

Lemma tick_removes t element v :
  clock v + 1 = t + 2000 → armed t element v → plain (tick wall v) element.
Proof.
  intros Hc (Hh & Hin & Hmin). unfold tick.
  pose proof (runInterval_decor wall (runTimeouts (setClock (clock v + 1) v))) as Hd.
  unfold decor in Hd. injection Hd as Hcl _ _.
  unfold plain, classesOf. rewrite Hcl.
  apply (fold_onTimeout_plain element). exists (t + 2000).
  simpl. apply list_elem_of_filter. split; [simpl; lia|exact Hin].
Qed.

Lemma elapse_keeps_armed t element ms : ∀ v,
  clock v + Z.of_nat ms < t + 2000 → armed t element v →
  armed t element (elapse wall ms v) ∧ clock (elapse wall ms v) = clock v + Z.of_nat ms.
Proof.
  induction ms as [|ms IH]; intros v Hc Ha; simpl elapse.
  - split; [exact Ha|lia].
  - destruct (IH (tick wall v)) as [Ha' Hc'].
    + rewrite tick_clock. lia.
    + apply tick_keeps_armed; [lia|exact Ha].
    + split; [exact Ha'|]. rewrite Hc', tick_clock. lia.
Qed.

Lemma run_keeps_armed t element actions : ∀ v,
  t ≤ clock v →
  clock v + Z.of_nat (duration actions) < t + 2000 → armed t element v →
  armed t element (run wall actions v) ∧
  clock (run wall actions v) = clock v + Z.of_nat (duration actions).
Proof.
  induction actions as [|a actions IH]; intros v Ht Hc Ha.
  - simpl. split; [exact Ha|lia].
  - destruct a as [i| |ms]; simpl run; simpl duration; simpl duration in Hc.
    + destruct (IH (handlePriorityClick i v)) as [Ha' Hc'].
      * rewrite handlePriorityClick_clock. exact Ht.
      * rewrite handlePriorityClick_clock. exact Hc.
      * apply handlePriorityClick_keeps_armed; assumption.
      * split; [exact Ha'|]. rewrite Hc', handlePriorityClick_clock. reflexivity.
    + pose proof (scrollToNow_decor wall v) as Hd.
      assert (clock (scrollToNow wall v) = clock v) as Hck
        by (unfold decor in Hd; congruence).
      destruct (IH (scrollToNow wall v)) as [Ha' Hc'].
      * rewrite Hck. exact Ht.
      * rewrite Hck. exact Hc.
      * eapply armed_decor; [exact Hd|exact Ha].
      * split; [exact Ha'|]. rewrite Hc', Hck. reflexivity.
    + destruct (elapse_keeps_armed t element ms v) as [Ha1 Hc1]; [lia|exact Ha|].
      destruct (IH (elapse wall ms v)) as [Ha' Hc']; [lia|lia|exact Ha1|].
      split; [exact Ha'|]. lia.
Qed.

Lemma elapse_tick ms : ∀ v, elapse wall ms (tick wall v) = tick wall (elapse wall ms v).
Proof.
  induction ms as [|ms IH]; intros v; simpl; [reflexivity|].
  rewrite IH. reflexivity.
Qed.

Lemma run_app actions more v :
  run wall (actions ++ more) v = run wall more (run wall actions v).
Proof. unfold run. apply fold_left_app. Qed.

(** C5, as the code has it.  In a view whose scroll container is mounted,
    a click on a grouped entry whose identifier has a block registered,
    made when no removal of the highlight is pending for that block (no
    click on the same entry in the 2 seconds before), puts the highlight on
    that block; the highlight stays for as long as less than 2 seconds have
    passed, and is gone when exactly 2 seconds have passed, whatever is
    clicked in between; the click changes the classes of no other block. *)
Theorem highlight_lasts_two_seconds
    (i : EventId) (element : Element) (v : View) (actions : list Action) :
  eventRefs v !! propertyKey i = Some element →
  is_Some (scrollContainerRef v) →
  (∀ due, (due, element) ∉ timeouts v) →
  (duration actions < 2000)%nat →
  let v1 := handlePriorityClick i v in
  highlighted v1 element ∧
  highlighted (run wall actions v1) element ∧
  plain (run wall (actions ++ [Elapse (2000 - duration actions)]) v1) element ∧
  (∀ other, other ≠ element → classesOf v1 other = classesOf v other).
Proof.
  intros Hr Hc Hfree Hd v1.
  pose proof (handlePriorityClick_arms i element v Hr Hc Hfree) as Ha1.
  fold v1 in Ha1.
  assert (clock v1 = clock v) as Hck by apply handlePriorityClick_clock.
  split; [apply Ha1|].
  destruct (run_keeps_armed (clock v) element actions v1) as [Ha2 Hc2];
    [lia|lia|exact Ha1|].
  split; [apply Ha2|].
  split.
  - rewrite run_app. simpl run.
    set (w := run wall actions v1) in *.
    destruct (2000 - duration actions)%nat as [|k] eqn:Hk; [lia|].
    simpl elapse. rewrite elapse_tick.
    destruct (elapse_keeps_armed (clock v) element k w) as [Ha3 Hc3]; [lia|exact Ha2|].
    apply (tick_removes (clock v)); [lia|exact Ha3].
  - intros other Hne. unfold v1.
    rewrite (handlePriorityClick_classesOf _ _ _ _ Hr Hc).
    rewrite decide_False by congruence. reflexivity.
Qed.

Local Transparent classListAdd classListRemove.

End Highlight.

(** The entry of event 2 is clicked on the sample page; entry 1 and entry 2
    again are clicked within the next two seconds. *)
Lemma highlight_lasts_two_seconds_example :
  let v1 := handlePriorityClick (IdNumber 2) Sample.page in
  let actions := [ClickEntry (IdNumber 1); Elapse 500; ClickEntry (IdNumber 2); ClickToday;
                  Elapse 700] in
  highlighted v1 1%nat ∧
  highlighted (run Sample.wall actions v1) 1%nat ∧
  plain (run Sample.wall (actions ++ [Elapse (2000 - duration actions)]) v1) 1%nat ∧
  (∀ other, other ≠ 1%nat → classesOf v1 other = classesOf Sample.page other).
Proof.
  apply (highlight_lasts_two_seconds Sample.wall (IdNumber 2) 1%nat Sample.page).
  - reflexivity.
  - eexists. reflexivity.
  - intros due. apply not_elem_of_nil.
  - vm_compute. lia.
Defined.

(** C5, as it is stated, fails for a second click on the same entry: on the
    sample page the entry of event 1 is clicked, and clicked again one
    second later; the block of event 1 is registered and the second click
    finds it highlighted, but one second after the second click the
    highlight is gone, removed by the timer of the first click. *)
Lemma second_click_highlight_cut_short :
  let v := run Sample.wall [ClickEntry (IdNumber 1); Elapse 1000] Sample.page in
  let v1 := handlePriorityClick (IdNumber 1) v in
  eventRefs v !! propertyKey (IdNumber 1) = Some 0%nat ∧
  is_Some (scrollContainerRef v) ∧
  highlighted v1 0%nat ∧
  highlighted (run Sample.wall [Elapse 999] v1) 0%nat ∧
  plain (run Sample.wall [Elapse 1000] v1) 0%nat ∧
  ¬ highlighted (run Sample.wall [Elapse 1000] v1) 0%nat.
Proof.
  split; [vm_compute; reflexivity|].
  split; [eexists; vm_compute; reflexivity|].
  repeat split; compute_done.
Qed.

(** * Further properties of the code *)

Import Lifecycle Panel Reach.

(** ** Minutes of the day and the geometry of a block *)

Section Geometry.

(** The functions of [DailyView] are those of the host whose clock never
    changes. *)
Lemma getMinutesOfDay_steady iso :
  Host.getMinutesOfDay (Host.local Host.steady) iso = getMinutesOfDay iso.
Proof. unfold Host.getMinutesOfDay, getMinutesOfDay. rewrite local_steady. reflexivity. Qed.

(** X1. [getMinutesOfDay] reads back what the local clock shows for what
    was written.  In any time zone, for a local date-time string
    "YYYY-MM-DDTHH:mm" of a calendar day, the result is the minutes of the
    day of the time the clock shows for the written one: HH * 60 + mm when
    no clock change skips the written time, and the minutes of the later
    time when one does. *)
Theorem getMinutesOfDay_reads_back (zone : Host.Zone) (y mo d h mi : Z) :
  0 ≤ y ≤ 9999 → 1 ≤ mo ≤ 12 → 1 ≤ d ≤ daysInMonth y mo →
  0 ≤ h ≤ 23 → 0 ≤ mi ≤ 59 →
  let written := mkDate y (mo - 1) d h mi 0 0 in
  (zone written = written →
     Host.getMinutesOfDay (Host.local zone) (Spec.isoLocal y mo d h mi) = Some (h * 60 + mi)) ∧
  (Host.timeOfDay (zone written) = true →
     Host.getMinutesOfDay (Host.local zone) (Spec.isoLocal y mo d h mi) =
       Some (getHours (zone written) * 60 + getMinutes (zone written))).
Proof.
  intros Hy Hmo Hd Hh Hmi written.
  assert (Host.timeOfDay (zone written) = true →
          Host.getMinutesOfDay (Host.local zone) (Spec.isoLocal y mo d h mi) =
            Some (getHours (zone written) * 60 + getMinutes (zone written))) as Hshown.
  { intros Ht. unfold Host.getMinutesOfDay, Host.local.
    rewrite newDate_isoLocal by assumption. simpl. fold written. rewrite Ht. reflexivity. }
  split; [|exact Hshown].
  intros Hkept. rewrite Hshown; rewrite Hkept.
  - reflexivity.
  - unfold Host.timeOfDay, written. simpl. lia.
Qed.

(** In New York, half past seven on 13 March 2022 is read as written, and
    half past two, which the clock skips that day, as half past three. *)
Lemma getMinutesOfDay_reads_back_example :
  Host.getMinutesOfDay (Host.local Host.newYork2022) (Spec.isoLocal 2022 3 13 7 30)
    = Some (7 * 60 + 30) ∧
  Host.getMinutesOfDay (Host.local Host.newYork2022) (Spec.isoLocal 2022 3 13 2 30)
    = Some (3 * 60 + 30).
Proof.
  split.
  - apply (proj1 (getMinutesOfDay_reads_back Host.newYork2022 2022 3 13 7 30
                    ltac:(lia) ltac:(lia) ltac:(vm_compute; split; discriminate)
                    ltac:(lia) ltac:(lia))).
    reflexivity.
  - apply (proj2 (getMinutesOfDay_reads_back Host.newYork2022 2022 3 13 2 30
                    ltac:(lia) ltac:(lia) ltac:(vm_compute; split; discriminate)
                    ltac:(lia) ltac:(lia))).
    reflexivity.
Defined.

(** X2. Whatever date-time string is read, the minutes of the day lie from
    0 to 1439, so the top of the block of any event whose start is read
    lies from 0 (included) to 100 (excluded) percent. *)
Theorem top_within_timeline (event : DailyEvent) (m : Z) :
  getMinutesOfDay (start event) = Some m →
  0 ≤ m ≤ 1439 ∧
  ∃ t, top (renderEvent event) = Some t ∧ (0 <= t)%Q ∧ (t < 100)%Q.
Proof.
  intros Hm. unfold getMinutesOfDay in Hm.
  destruct (newDate (start event)) as [s|] eqn:Hs; [|discriminate].
  simpl in Hm. injection Hm as <-.
  pose proof (newDate_time_of_day _ _ Hs) as Hr.
  split; [lia|].
  unfold renderEvent. simpl. rewrite (getMinutesOfDay_newDate _ _ Hs). simpl.
  eexists. split; [reflexivity|].
  unfold Spec.minutesOfDay.
  set (a := getHours s * 60 + getMinutes s) in *.
  assert ((inject_Z a / 1440 * 100 == inject_Z a * (100 # 1440))%Q) as -> by field.
  unfold Qle, Qlt, Qmult, inject_Z; simpl. lia.
Qed.

(** The flight of the sample page starts at 07:30. *)
Lemma top_within_timeline_example :
  0 ≤ 450 ≤ 1439 ∧
  ∃ t, top (renderEvent (mkEvent (IdNumber 2) "Flight to Paris" None
                           "2022-01-22T07:30" "2022-01-22T09:00" None Moderate)) = Some t ∧
       (0 <= t)%Q ∧ (t < 100)%Q.
Proof.
  apply (top_within_timeline
           (mkEvent (IdNumber 2) "Flight to Paris" None
              "2022-01-22T07:30" "2022-01-22T09:00" None Moderate) 450).
  reflexivity.
Defined.

(** X3. The view does not reject an event that ends before it starts: when
    the minutes of the day of the end are below those of the start, the
    block is rendered with a negative height. *)
Theorem negative_height_is_rendered (event : DailyEvent) (s e : Date) :
  newDate (start event) = Some s →
  newDate (end_ event) = Some e →
  Spec.minutesOfDay e < Spec.minutesOfDay s →
  ∃ h, height (renderEvent event) = Some h ∧ (h < 0)%Q.
Proof.
  intros Hs He Hlt.
  destruct (renderEvent_geometry event s e Hs He) as [_ Hh].
  eexists. split; [exact Hh|].
  rewrite percent_difference.
  assert (∀ m : Z, (inject_Z m / 1440 * 100 == inject_Z m * (100 # 1440))%Q) as ->
    by (intros m; field).
  unfold Qlt, Qmult, inject_Z; simpl. lia.
Qed.

(** An event entered from 09:00 back to 07:30. *)
Lemma negative_height_is_rendered_example :
  ∃ h, height (renderEvent (mkEvent (IdNumber 2) "Flight to Paris" None
                              "2022-01-22T09:00" "2022-01-22T07:30" None Moderate)) = Some h ∧
       (h < 0)%Q.
Proof.
  apply (negative_height_is_rendered
           (mkEvent (IdNumber 2) "Flight to Paris" None
              "2022-01-22T09:00" "2022-01-22T07:30" None Moderate)
           (mkDate 2022 0 22 9 0 0 0) (mkDate 2022 0 22 7 30 0 0)).
  - reflexivity.
  - reflexivity.
  - reflexivity.
Defined.

(** X4. For every event whose start and end are read, the top and the
    height that JavaScript computes in doubles are finite and within 2^-44
    of the exact percentages of the rendered block. *)
Theorem doubles_follow_the_block (event : DailyEvent) (s e : Date) :
  newDate (start event) = Some s →
  newDate (end_ event) = Some e →
  ∃ t h t64 h64,
    top (renderEvent event) = Some t ∧ height (renderEvent event) = Some h ∧
    Binary64.value (Binary64.startPct (Spec.minutesOfDay s)) = Some t64 ∧
    Binary64.value
      (Binary64.heightPct (Spec.minutesOfDay s) (Spec.minutesOfDay e)) = Some h64 ∧
    (Qabs (t64 - t) <= 1 # 17592186044416)%Q ∧
    (Qabs (h64 - h) <= 1 # 17592186044416)%Q.
Proof.
  intros Hs He.
  destruct (renderEvent_geometry event s e Hs He) as [Ht Hh].
  apply newDate_time_of_day in Hs, He.
  destruct (binary64_layout (Spec.minutesOfDay s) (Spec.minutesOfDay e))
    as (t64 & h64 & Hvt & Hvh & Hnt & Hnh & _); [unfold Spec.minutesOfDay; lia..|].
  eexists _, _, t64, h64.
  split; [exact Ht|]. split; [exact Hh|]. split; [exact Hvt|]. split; [exact Hvh|].
  split; [exact Hnt|]. rewrite percent_difference. exact Hnh.
Qed.

(** The breakfast of the sample page. *)
Lemma doubles_follow_the_block_example :
  ∃ t h t64 h64,
    top (renderEvent (mkEvent (IdNumber 1) "Breakfast" None
                        "2022-01-22T06:00" "2022-01-22T07:00" None High)) = Some t ∧
    height (renderEvent (mkEvent (IdNumber 1) "Breakfast" None
                        "2022-01-22T06:00" "2022-01-22T07:00" None High)) = Some h ∧
    Binary64.value (Binary64.startPct 360) = Some t64 ∧
    Binary64.value (Binary64.heightPct 360 420) = Some h64 ∧
    (Qabs (t64 - t) <= 1 # 17592186044416)%Q ∧
    (Qabs (h64 - h) <= 1 # 17592186044416)%Q.
Proof.
  exact (doubles_follow_the_block
           (mkEvent (IdNumber 1) "Breakfast" None
              "2022-01-22T06:00" "2022-01-22T07:00" None High)
           (mkDate 2022 0 22 6 0 0 0) (mkDate 2022 0 22 7 0 0 0) eq_refl eq_refl).
Defined.

End Geometry.

(** ** Labels *)

Section Labels.

Lemma forallb_below2 (n m : nat) (P : Z → Z → bool) :
  forallb (λ h, forallb (P h) (map Z.of_nat (seq 0 m))) (map Z.of_nat (seq 0 n)) = true →
  ∀ h k, 0 ≤ h < Z.of_nat n → 0 ≤ k < Z.of_nat m → P h k = true.
Proof.
  intros Hall h k Hh Hk.
  apply (forallb_below m (P h)); [|exact Hk].
  apply (forallb_below n (λ h, forallb (P h) (map Z.of_nat (seq 0 m))) Hall h Hh).
Qed.

Lemma readTimeLabel_timeLabel h m :
  0 ≤ h < 24 → 0 ≤ m < 60 → readTimeLabel (Spec.timeLabel h m) = Some (h, m).
Proof.
  intros Hh Hm.
  pose (P := λ h m : Z,
    match readTimeLabel (Spec.timeLabel h m) with
    | Some (h', m') => (h' =? h) && (m' =? m)
    | None => false
    end).
  assert (P h m = true) as HP.
  { apply (forallb_below2 24 60 P); [vm_compute; reflexivity|lia|lia]. }
  unfold P in HP.
  destruct (readTimeLabel (Spec.timeLabel h m)) as [[h' m']|]; [|discriminate].
  apply andb_prop in HP as [H1 H2]. apply Z.eqb_eq in H1, H2. congruence.
Qed.

Lemma timeLabel_length h m :
  0 ≤ h < 24 → 0 ≤ m < 60 →
  (String.length (Spec.timeLabel h m) = 7 ∨ String.length (Spec.timeLabel h m) = 8)%nat.
Proof.
  intros Hh Hm.
  pose (P := λ h m : Z,
    let n := String.length (Spec.timeLabel h m) in ((n =? 7) || (n =? 8))%nat).
  assert (P h m = true) as HP.
  { apply (forallb_below2 24 60 P); [vm_compute; reflexivity|lia|lia]. }
  unfold P in HP. apply orb_prop in HP as [H|H]; apply Nat.eqb_eq in H; auto.
Qed.

(** X5. [formatTime] tells the minutes of the day apart: two dates that
    were read and are formatted alike have the same hours and minutes, and
    the label is 7 or 8 characters long. *)
Theorem formatTime_injective (isoA isoB : string) (a b : Date) :
  newDate isoA = Some a → newDate isoB = Some b →
  (formatTime a = formatTime b → getHours a = getHours b ∧ getMinutes a = getMinutes b) ∧
  (String.length (formatTime a) = 7 ∨ String.length (formatTime a) = 8)%nat.
Proof.
  intros Ha Hb.
  apply newDate_time_of_day in Ha, Hb.
  rewrite !formatTime_timeLabel by lia.
  split; [|apply timeLabel_length; lia].
  intros Heq.
  pose proof (readTimeLabel_timeLabel (getHours a) (getMinutes a) ltac:(lia) ltac:(lia)) as Ra.
  pose proof (readTimeLabel_timeLabel (getHours b) (getMinutes b) ltac:(lia) ltac:(lia)) as Rb.
  rewrite Heq, Rb in Ra. injection Ra as -> ->. split; reflexivity.
Qed.

(** A time with seconds and one without, in the same minute. *)
Lemma formatTime_injective_example :
  (formatTime (mkDate 2022 0 22 6 5 30 0) = formatTime (mkDate 2022 0 23 6 5 0 0) →
     6 = 6 ∧ 5 = 5) ∧
  (String.length (formatTime (mkDate 2022 0 22 6 5 30 0)) = 7 ∨
   String.length (formatTime (mkDate 2022 0 22 6 5 30 0)) = 8)%nat.
Proof.
  exact (formatTime_injective "2022-01-22T06:05:30" "2022-01-23T06:05"
           (mkDate 2022 0 22 6 5 30 0) (mkDate 2022 0 23 6 5 0 0) eq_refl eq_refl).
Defined.

Lemma formatHourLabel_injective h k :
  0 ≤ h < 24 → 0 ≤ k < 24 → formatHourLabel h = formatHourLabel k → h = k.
Proof.
  intros Hh Hk Heq.
  pose (P := λ h k : Z,
    implb (String.eqb (formatHourLabel h) (formatHourLabel k)) (h =? k)).
  assert (P h k = true) as HP.
  { apply (forallb_below2 24 24 P); [vm_compute; reflexivity|lia|lia]. }
  unfold P in HP. rewrite (proj2 (String.eqb_eq _ _) Heq) in HP.
  simpl in HP. apply Z.eqb_eq in HP. exact HP.
Qed.

(** X6. The timeline has 48 slots; the even slots, and only they, carry a
    label, which is the 12-hour label of the hour the slot starts; the
    labels of two different hours of the day differ. *)
Theorem slot_labels_mark_the_hours :
  length slotLabels = 48%nat ∧
  (∀ i, (i < 48)%nat →
     slotLabels !! i =
       Some (if Nat.even i then Some (Spec.hourLabel (Z.of_nat (i / 2))) else None)) ∧
  (∀ h k, 0 ≤ h < 24 → 0 ≤ k < 24 → formatHourLabel h = formatHourLabel k → h = k).
Proof.
  split; [reflexivity|]. split; [|exact formatHourLabel_injective].
  intros i Hi.
  pose (P := λ i : Z,
    match slotLabels !! Z.to_nat i with
    | Some (Some l) =>
        Nat.even (Z.to_nat i) && String.eqb l (Spec.hourLabel (Z.of_nat (Z.to_nat i / 2)))
    | Some None => negb (Nat.even (Z.to_nat i))
    | None => false
    end).
  assert (P (Z.of_nat i) = true) as HP.
  { apply (forallb_below 48 P); [vm_compute; reflexivity|lia]. }
  unfold P in HP. rewrite Nat2Z.id in HP.
  destruct (slotLabels !! i) as [[l|]|]; [| |discriminate].
  - apply andb_prop in HP as [He Hl]. rewrite He.
    apply String.eqb_eq in Hl. rewrite Hl. reflexivity.
  - apply negb_true_iff in HP. rewrite HP. reflexivity.
Qed.

End Labels.

(** ** The side panel *)

Section SidePanel.

Lemma entryIds_PriorityGroup label evts :
  entryIds (PriorityGroup label evts) = map id evts.
Proof.
  destruct evts as [|evt evts]; [reflexivity|].
  unfold PriorityGroup, entryIds. rewrite map_map. reflexivity.
Qed.

Lemma blockKeys_eventsLayer evts : map blockKey (eventsLayer evts) = map id evts.
Proof. unfold eventsLayer. rewrite map_map. reflexivity. Qed.

Lemma filter_level_none level (evts : list DailyEvent) :
  (∀ evt, evt ∈ evts → priorityLevel evt ≠ level) →
  filter (λ evt, priorityLevel evt = level) evts = [].
Proof.
  induction evts as [|evt evts IH]; intros Hnone; [reflexivity|].
  rewrite filter_cons, decide_False by (apply Hnone; left).
  apply IH. intros e He. apply Hnone. right. exact He.
Qed.

(** X7. The side panel lists every event once, in the group of its level:
    the entries of a group carry the identifiers of the events of that
    level in the order of the event list; over the three groups they carry
    the identifiers of the timeline blocks, each occurrence once; and a
    group shows its placeholder, "No <label in lower case> events.", exactly
    when no event has its level. *)
Theorem side_panel_lists_every_event (events : list DailyEvent) :
  (∀ label level,
     entryIds (PriorityGroup label (bucket (priorityMap events) level)) =
       map id (filter (λ evt, priorityLevel evt = level) events)) ∧
  panelIds (sidePanel events) ≡ₚ map blockKey (eventsLayer events) ∧
  (∀ label level,
     (∀ evt, evt ∈ events → priorityLevel evt ≠ level) ↔
     PriorityGroup label (bucket (priorityMap events) level) =
       Placeholder ("No " +:+ toLowerCase label +:+ " events.")).
Proof.
  split; [|split].
  - intros label level. rewrite entryIds_PriorityGroup, bucket_priorityMap. reflexivity.
  - unfold panelIds, sidePanel. cbn [map concat].
    rewrite !entryIds_PriorityGroup, !bucket_priorityMap, app_nil_r, blockKeys_eventsLayer.
    rewrite <- !map_app. apply (Permutation_map id). apply three_way_split.
  - intros label level. rewrite bucket_priorityMap. split.
    + intros Hnone.
      rewrite (filter_level_none level events Hnone). reflexivity.
    + intros Hp evt Hin Hl.
      destruct (filter (λ evt, priorityLevel evt = level) events) as [|x l] eqn:Hf;
        [|discriminate].
      assert (evt ∈ filter (λ evt, priorityLevel evt = level) events) as Hin'
        by (apply list_elem_of_filter; auto).
      rewrite Hf in Hin'. apply elem_of_nil in Hin'. exact Hin'.
Qed.

End SidePanel.

(** ** What holds of every mounted view *)

Section Reachable.

Variable wall : Z → Now.

(** *** The scroll container stays attached *)

Lemma scrollToNow_attached v : attached v → attached (scrollToNow wall v).
Proof.
  unfold attached, scrollToNow. intros [c Hc]. rewrite Hc.
  destruct (negb (isToday v)); [rewrite Hc|]; eexists; reflexivity.
Qed.

Lemma effect_attached v : attached v → attached (effect wall v).
Proof.
  intros Hv. unfold effect.
  destruct (isToday v).
  - destruct (isToday (scrollToNow wall v)); [|apply scrollToNow_attached, Hv].
    apply (scrollToNow_attached v Hv).
  - destruct (isToday v); exact Hv.
Qed.

Lemma fold_onTimeout_container due : ∀ v,
  scrollContainerRef (fold_left (λ w (p : Z * Element), onTimeout p.2 w) due v)
    = scrollContainerRef v.
Proof.
  induction due as [|p due IH]; intros v; simpl; [reflexivity|].
  rewrite IH. reflexivity.
Qed.

Lemma runInterval_attached v : attached v → attached (runInterval wall v).
Proof.
  intros Hv. unfold runInterval.
  destruct (intervalId v) as [due|]; [|exact Hv].
  destruct (due <=? clock v); [|exact Hv].
  unfold onInterval, setNowFraction.
  destruct (Qeq_bool _ _); [exact Hv|].
  unfold rerender. destruct (Bool.eqb _ _); [exact Hv|].
  apply effect_attached. exact Hv.
Qed.

Lemma tick_attached v : attached v → attached (tick wall v).
Proof.
  intros Hv. unfold tick. apply runInterval_attached.
  unfold attached, runTimeouts. rewrite fold_onTimeout_container. exact Hv.
Qed.

Lemma handlePriorityClick_container i v :
  scrollContainerRef (handlePriorityClick i v) = scrollContainerRef v.
Proof.
  unfold handlePriorityClick.
  destruct (eventRefs v !! propertyKey i); [|reflexivity].
  destruct (scrollContainerRef v) eqn:Hc; [simpl; exact Hc|exact Hc].
Qed.

Lemma elapse_attached ms : ∀ v, attached v → attached (elapse wall ms v).
Proof.
  induction ms as [|ms IH]; intros v Hv; simpl; [exact Hv|].
  apply IH, tick_attached, Hv.
Qed.

Lemma run_attached actions : ∀ v, attached v → attached (run wall actions v).
Proof.
  induction actions as [|a actions IH]; intros v Hv; simpl; [exact Hv|].
  apply IH. destruct a; simpl.
  - unfold attached. rewrite handlePriorityClick_container. exact Hv.
  - apply scrollToNow_attached, Hv.
  - apply elapse_attached, Hv.
Qed.

Lemma mount_attached date label events box t0 :
  attached (mount wall date label events box t0).
Proof. unfold mount. apply effect_attached. eexists. reflexivity. Qed.

(** *** Class lists *)

Lemma attachClasses_lookup evts : ∀ n m x cl,
  attachClasses n evts m !! x = Some cl → cl = blockClassName ∨ m !! x = Some cl.
Proof.
  induction evts as [|evt evts IH]; intros n m x cl H; simpl in H; [right; exact H|].
  apply IH in H as [H|H]; [left; exact H|].
  destruct (decide (n = x)) as [->|Hne].
  - rewrite lookup_insert_eq in H. injection H as <-. left. reflexivity.
  - rewrite lookup_insert_ne in H by exact Hne. right. exact H.
Qed.

Lemma mount_classesOf date label events box t0 element :
  classesOf (mount wall date label events box t0) element = blockClassName ∨
  classesOf (mount wall date label events box t0) element = [].
Proof.
  unfold mount, classesOf.
  pose proof (effect_decor wall
    (mkView date label events (computeNowFraction (wall t0))
       (String.eqb date (todayIso (wall t0))) (Some box)
       (attachRefs 0 events ∅) (attachClasses 0 events ∅) [] None [] t0)) as Hd.
  unfold decor in Hd. injection Hd as Hc _ _. rewrite Hc. simpl.
  destruct (attachClasses 0 events ∅ !! element) as [cl|] eqn:Hl; [|right; reflexivity].
  apply attachClasses_lookup in Hl as [->|Hl]; [left; reflexivity|].
  rewrite lookup_empty in Hl. discriminate.
Qed.

Lemma mount_timeouts date label events box t0 :
  timeouts (mount wall date label events box t0) = [] ∧
  clock (mount wall date label events box t0) = t0.
Proof.
  unfold mount.
  pose proof (effect_decor wall
    (mkView date label events (computeNowFraction (wall t0))
       (String.eqb date (todayIso (wall t0))) (Some box)
       (attachRefs 0 events ∅) (attachClasses 0 events ∅) [] None [] t0)) as Hd.
  unfold decor in Hd. injection Hd as _ Ht Hc. split; assumption.
Qed.

End Reachable.

(** ** Identifiers without a block *)

Section Unregistered.

Variable wall : Z → Now.


End Unregistered.


(** ** The highlight never sticks *)

Section Tidy.

Variable wall : Z → Now.

Lemma plain_classesOf v w element :
  classesOf v element = classesOf w element → plain v element → plain w element.
Proof. unfold plain. intros ->. auto. Qed.

Lemma tidy_decor v w : decor v = decor w → tidy w → tidy v.
Proof.
  unfold decor, tidy, plain, classesOf. intros H Hw.
  injection H as Hc Ht Hk. rewrite Hc, Ht, Hk. exact Hw.
Qed.

Lemma handlePriorityClick_tidy i v : tidy v → tidy (handlePriorityClick i v).
Proof.
  intros [Hpend Hdue].
  destruct (eventRefs v !! propertyKey i) as [el|] eqn:Hr;
    [|rewrite handlePriorityClick_idle by (left; exact Hr); split; assumption].
  destruct (scrollContainerRef v) as [c|] eqn:Hc;
    [|rewrite handlePriorityClick_idle by (right; exact Hc); split; assumption].
  assert (is_Some (scrollContainerRef v)) as Hc' by (rewrite Hc; eexists; reflexivity).
  split.
  - intros x Hx. rewrite (handlePriorityClick_timeouts _ _ _ Hr Hc').
    destruct (decide (x = el)) as [->|Hne].
    + exists (clock v + 2000). apply elem_of_app. right. left.
    + destruct (Hpend x) as [due Hin].
      * intros Hp. apply Hx. eapply plain_classesOf; [|exact Hp].
        rewrite (handlePriorityClick_classesOf _ _ _ _ Hr Hc').
        rewrite decide_False by congruence. reflexivity.
      * exists due. apply elem_of_app. left. exact Hin.
  - intros due x Hin. rewrite handlePriorityClick_clock.
    rewrite (handlePriorityClick_timeouts _ _ _ Hr Hc') in Hin.
    apply elem_of_app in Hin as [Hin|Hin]; [apply (Hdue due x Hin)|].
    apply list_elem_of_singleton in Hin. injection Hin as -> _. lia.
Qed.

(** After a millisecond the removals that were due are gone and the others
    are still pending. *)
Lemma tick_timeouts v :
  timeouts (tick wall v) = filter (λ p, ¬ p.1 ≤ clock v + 1) (timeouts v).
Proof.
  unfold tick.
  pose proof (runInterval_decor wall (runTimeouts (setClock (clock v + 1) v))) as Hd.
  unfold decor in Hd. injection Hd as _ Ht _. rewrite Ht.
  unfold runTimeouts. rewrite fold_onTimeout_timeouts. reflexivity.
Qed.

Lemma tick_tidy v : tidy v → tidy (tick wall v).
Proof.
  intros [Hpend Hdue]. split.
  - intros x Hx. rewrite tick_timeouts.
    set (fired := filter (λ p : Z * Element, p.1 ≤ clock v + 1) (timeouts v)).
    assert (classList (tick wall v)
              = classList (fold_left (λ w (p : Z * Element), onTimeout p.2 w) fired
                             (setTimeouts (filter (λ p, ¬ p.1 ≤ clock v + 1) (timeouts v))
                                (setClock (clock v + 1) v)))) as Hcl.
    { unfold tick.
      pose proof (runInterval_decor wall (runTimeouts (setClock (clock v + 1) v))) as Hd.
      unfold decor in Hd. injection Hd as Hc _ _. exact Hc. }
    destruct (decide (Exists (λ p : Z * Element, p.2 = x) fired)) as [Hex|Hno].
    + exfalso. apply Hx. unfold plain, classesOf. rewrite Hcl.
      apply (fold_onTimeout_plain x).
      apply Exists_exists in Hex as ([t y] & Hin & Hy). simpl in Hy. subst y.
      exists t. exact Hin.
    + assert (∀ t, (t, x) ∉ fired) as Hfree.
      { intros t Hin. apply Hno. apply Exists_exists. exists (t, x).
        split; [exact Hin|reflexivity]. }
      destruct (Hpend x) as [due Hin].
      * intros Hp. apply Hx. unfold plain, classesOf. rewrite Hcl.
        change (Forall (λ t, t ∉ classesOf
                  (fold_left (λ w (p : Z * Element), onTimeout p.2 w) fired
                     (setTimeouts (filter (λ p, ¬ p.1 ≤ clock v + 1) (timeouts v))
                        (setClock (clock v + 1) v))) x) ringClasses).
        rewrite (fold_onTimeout_classesOf x fired _ Hfree). exact Hp.
      * exists due. apply list_elem_of_filter. split; [|exact Hin].
        simpl. intros Hle. apply (Hfree due). apply list_elem_of_filter. split; assumption.
  - intros due x Hin. rewrite tick_clock. rewrite tick_timeouts in Hin.
    apply list_elem_of_filter in Hin as [Hgt Hin]. simpl in Hgt.
    specialize (Hdue due x Hin). lia.
Qed.

Lemma elapse_tidy ms : ∀ v, tidy v → tidy (elapse wall ms v).
Proof.
  induction ms as [|ms IH]; intros v Hv; simpl; [exact Hv|].
  apply IH, tick_tidy, Hv.
Qed.

Lemma run_tidy actions : ∀ v, tidy v → tidy (run wall actions v).
Proof.
  induction actions as [|a actions IH]; intros v Hv; simpl; [exact Hv|].
  apply IH. destruct a; simpl.
  - apply handlePriorityClick_tidy, Hv.
  - eapply tidy_decor; [apply scrollToNow_decor|exact Hv].
  - apply elapse_tidy, Hv.
Qed.

Lemma mount_tidy date label events box t0 :
  tidy (mount wall date label events box t0).
Proof.
  destruct (mount_timeouts wall date label events box t0) as [Ht Hc].
  split.
  - intros x Hx. exfalso. apply Hx. unfold plain.
    destruct (mount_classesOf wall date label events box t0 x) as [-> | ->];
      apply Forall_forall; intros t Ht'.
    + vm_compute in Ht'.
      repeat (apply elem_of_cons in Ht' as [-> | Ht']; [compute_done|]).
      apply elem_of_nil in Ht'. contradiction.
    + apply not_elem_of_nil.
  - intros due x Hin. rewrite Ht in Hin. apply elem_of_nil in Hin. contradiction.
Qed.

Lemma elapse_clock ms : ∀ v, clock (elapse wall ms v) = clock v + Z.of_nat ms.
Proof.
  induction ms as [|ms IH]; intros v; simpl elapse; [lia|].
  rewrite IH, tick_clock. lia.
Qed.

Lemma elapse_pending ms : ∀ v p, p ∈ timeouts (elapse wall ms v) → p ∈ timeouts v.
Proof.
  induction ms as [|ms IH]; intros v p Hp; simpl in Hp; [exact Hp|].
  apply IH in Hp. rewrite tick_timeouts in Hp.
  apply list_elem_of_filter in Hp as [_ Hp]. exact Hp.
Qed.

Lemma tidy_settles v :
  tidy v →
  timeouts (elapse wall 2000 v) = [] ∧ ∀ element, plain (elapse wall 2000 v) element.
Proof.
  intros Hv. pose proof (elapse_tidy 2000 v Hv) as [Hpend Hdue].
  assert (timeouts (elapse wall 2000 v) = []) as Hnone.
  { destruct (timeouts (elapse wall 2000 v)) as [|[due x] rest] eqn:Ht; [reflexivity|].
    exfalso.
    assert ((due, x) ∈ timeouts (elapse wall 2000 v)) as Hin by (rewrite Ht; left).
    assert (clock (elapse wall 2000 v) < due) as Hlate by (apply (Hdue due x); left).
    rewrite elapse_clock in Hlate.
    apply elapse_pending in Hin. destruct Hv as [_ Hv]. specialize (Hv due x Hin). lia. }
  split; [exact Hnone|].
  intros x. destruct (decide (plain (elapse wall 2000 v) x)) as [Hp|Hn]; [exact Hp|].
  destruct (Hpend x Hn) as [due Hin]. rewrite Hnone in Hin.
  apply elem_of_nil in Hin. contradiction.
Qed.

(** X8 (dailyView.tsx, [handlePriorityClick] and its [setTimeout]): the
    highlight never sticks.  Whatever was clicked and however the clicks were
    spaced since the view was mounted, two seconds without a click leave no
    block with a ring class and no removal pending. *)
Theorem highlight_never_sticks date label events box t0 actions :
  let v := elapse wall 2000 (run wall actions (mount wall date label events box t0)) in
  timeouts v = [] ∧ ∀ element, plain v element.
Proof.
  cbv zeta. apply tidy_settles, run_tidy, mount_tidy.
Qed.

End Tidy.

(** ** The interval of the marker *)

Section Interval.

Variable wall : Z → Now.

Lemma ticking_timing v w : timing v = timing w → ticking w → ticking v.
Proof.
  unfold timing, ticking. intros H Hw.
  assert (isToday v = isToday w) as -> by congruence.
  assert (intervalId v = intervalId w) as -> by congruence.
  assert (clock v = clock w) as -> by congruence.
  exact Hw.
Qed.

Lemma effect_ticking v : intervalId v = None → ticking (effect wall v).
Proof.
  intros Hi. unfold effect.
  destruct (isToday v) eqn:Ht.
  - assert (isToday (scrollToNow wall v) = true) as Ht'.
    { pose proof (scrollToNow_timing wall v) as H. unfold timing in H. congruence. }
    rewrite Ht'. unfold ticking. simpl. split; [exact Ht'|lia].
  - rewrite Ht. unfold ticking. rewrite Hi. exact Ht.
Qed.

Lemma runInterval_ticking v :
  match intervalId v with
  | Some due => isToday v = true ∧ clock v ≤ due < clock v + 60000
  | None => isToday v = false
  end →
  ticking (runInterval wall v).
Proof.
  unfold runInterval.
  destruct (intervalId v) as [due|] eqn:Hi.
  - intros [Ht Hd]. destruct (due <=? clock v) eqn:Hle.
    + apply Z.leb_le in Hle.
      assert (ticking (setIntervalId (Some (due + 60000)) v)) as Hv'.
      { unfold ticking. simpl. split; [exact Ht|lia]. }
      unfold onInterval, setNowFraction.
      destruct (Qeq_bool _ _); [exact Hv'|].
      unfold rerender. destruct (Bool.eqb _ _); [exact Hv'|].
      apply effect_ticking. reflexivity.
    + apply Z.leb_gt in Hle. unfold ticking. rewrite Hi. split; [exact Ht|lia].
  - intros Ht. unfold ticking. rewrite Hi. exact Ht.
Qed.

Lemma tick_ticking v : ticking v → ticking (tick wall v).
Proof.
  intros Hv. unfold tick. apply runInterval_ticking.
  pose proof (runTimeouts_timing (setClock (clock v + 1) v)) as H.
  unfold timing in H. simpl in H.
  assert (isToday (runTimeouts (setClock (clock v + 1) v)) = isToday v) as -> by congruence.
  assert (intervalId (runTimeouts (setClock (clock v + 1) v)) = intervalId v) as -> by congruence.
  assert (clock (runTimeouts (setClock (clock v + 1) v)) = clock v + 1) as -> by congruence.
  unfold ticking in Hv. destruct (intervalId v) as [due|]; [|exact Hv].
  destruct Hv as [Ht Hd]. split; [exact Ht|lia].
Qed.

Lemma elapse_ticking ms : ∀ v, ticking v → ticking (elapse wall ms v).
Proof.
  induction ms as [|ms IH]; intros v Hv; simpl; [exact Hv|].
  apply IH, tick_ticking, Hv.
Qed.

Lemma run_ticking actions : ∀ v, ticking v → ticking (run wall actions v).
Proof.
  induction actions as [|a actions IH]; intros v Hv; simpl; [exact Hv|].
  apply IH. destruct a; simpl.
  - eapply ticking_timing; [apply handlePriorityClick_timing|exact Hv].
  - eapply ticking_timing; [apply scrollToNow_timing|exact Hv].
  - apply elapse_ticking, Hv.
Qed.

Lemma mount_ticking date label events box t0 :
  ticking (mount wall date label events box t0).
Proof. unfold mount. apply effect_ticking. reflexivity. Qed.

(** X9 (dailyView.tsx, the effect with its [setInterval] and its cleanup).
    Whatever has happened since the view was mounted, the interval that
    moves the marker is pending exactly when the marker is shown, and it is
    then due within the next minute: no interval is left running behind a
    view without marker, and no marker is left without its interval. *)
Theorem interval_runs_exactly_with_marker date label events box t0 actions :
  let v := run wall actions (mount wall date label events box t0) in
  (is_Some (intervalId v) ↔ is_Some (nowMarker v)) ∧
  (∀ due, intervalId v = Some due → clock v < due ≤ clock v + 60000).
Proof.
  cbv zeta.
  pose proof (run_ticking actions _ (mount_ticking date label events box t0)) as H.
  unfold ticking in H. unfold nowMarker.
  destruct (intervalId (run wall actions (mount wall date label events box t0))) as [due|].
  - destruct H as [-> Hd]. split.
    + split; intros _; eexists; reflexivity.
    + intros d Hd'. injection Hd' as <-. exact Hd.
  - rewrite H. split.
    + split; intros [x Hx]; discriminate.
    + intros d Hd'. discriminate.
Qed.

(** *** The day changes while the view is open *)

Lemma tick_before_interval v due :
  intervalId v = Some due → clock v + 1 < due →
  timing (tick wall v) = (date v, nowFraction v, isToday v, Some due, clock v + 1).
Proof.
  intros Hi Hd. unfold tick, runInterval.
  pose proof (runTimeouts_timing (setClock (clock v + 1) v)) as H.
  unfold timing in H. simpl in H.
  assert (intervalId (runTimeouts (setClock (clock v + 1) v)) = Some due) as -> by congruence.
  assert (clock (runTimeouts (setClock (clock v + 1) v)) = clock v + 1) as -> by congruence.
  destruct (due <=? clock v + 1) eqn:Hle; [apply Z.leb_le in Hle; lia|].
  unfold timing. rewrite H, Hi. reflexivity.
Qed.

Lemma elapse_before_interval ms : ∀ v due,
  intervalId v = Some due → clock v + Z.of_nat ms < due →
  timing (elapse wall ms v) =
    (date v, nowFraction v, isToday v, Some due, clock v + Z.of_nat ms).
Proof.
  induction ms as [|ms IH]; intros v due Hi Hd.
  - simpl. unfold timing. rewrite Hi, Z.add_0_r. reflexivity.
  - simpl elapse.
    pose proof (tick_before_interval v due Hi ltac:(lia)) as Ht. unfold timing in Ht.
    rewrite (IH (tick wall v) due) by (try congruence;
      replace (clock (tick wall v)) with (clock v + 1) by congruence; lia).
    replace (date (tick wall v)) with (date v) by congruence.
    replace (nowFraction (tick wall v)) with (nowFraction v) by congruence.
    replace (isToday (tick wall v)) with (isToday v) by congruence.
    replace (clock (tick wall v)) with (clock v + 1) by congruence.
    replace (clock v + 1 + Z.of_nat ms) with (clock v + Z.of_nat (S ms)) by lia.
    reflexivity.
Qed.

Lemma tick_at_interval v :
  isToday v = true → intervalId v = Some (clock v + 1) →
  todayIso (wall (clock v + 1)) ≠ date v →
  ¬ (computeNowFraction (wall (clock v + 1)) == nowFraction v)%Q →
  offToday (tick wall v).
Proof.
  intros Ht Hi Hday Hfrac. unfold tick, runInterval.
  pose proof (runTimeouts_timing (setClock (clock v + 1) v)) as H.
  unfold timing in H. simpl in H.
  set (v1 := runTimeouts (setClock (clock v + 1) v)) in *.
  assert (intervalId v1 = Some (clock v + 1)) as Hi1 by congruence.
  assert (clock v1 = clock v + 1) as Hc1 by congruence.
  assert (date v1 = date v) as Hd1 by congruence.
  assert (nowFraction v1 = nowFraction v) as Hf1 by congruence.
  assert (isToday v1 = true) as Ht1 by congruence.
  rewrite Hi1, Hc1, Z.leb_refl.
  unfold onInterval, setNowFraction.
  cbn [clock nowFraction setIntervalId]. rewrite Hc1, Hf1.
  destruct (Qeq_bool _ _) eqn:Hq; [apply Qeq_bool_iff in Hq; contradiction|].
  unfold rerender.
  cbn [clock date isToday setIntervalId setNowFractionField]. rewrite Hc1, Hd1, Ht1.
  assert (String.eqb (date v) (todayIso (wall (clock v + 1))) = false) as ->.
  { apply String.eqb_neq. congruence. }
  simpl. split; reflexivity.
Qed.

(** X10 (dailyView.tsx, [isToday], the interval callback and the cleanup of
    the effect): the day changes while the view is open.  When the interval
    comes due on another day than the one viewed, and the minute of the day
    is no longer the one shown, the render it causes drops the marker and
    the cleanup clears the interval; from then on, whatever happens, the
    view has neither. *)
Theorem marker_dropped_when_day_changes v due actions :
  isToday v = true → intervalId v = Some due → clock v < due →
  todayIso (wall due) ≠ date v →
  ¬ (computeNowFraction (wall due) == nowFraction v)%Q →
  let w := elapse wall (Z.to_nat (due - clock v)) v in
  nowMarker (run wall actions w) = None ∧ intervalId (run wall actions w) = None.
Proof.
  intros Ht Hi Hd Hday Hfrac w.
  assert (offToday w) as Hw.
  { unfold w.
    replace (Z.to_nat (due - clock v)) with (Z.to_nat (due - clock v - 1) + 1)%nat by lia.
    set (ms := Z.to_nat (due - clock v - 1)).
    assert (elapse wall (ms + 1) v = tick wall (elapse wall ms v)) as ->.
    { rewrite Nat.add_1_r. simpl. apply elapse_tick. }
    pose proof (elapse_before_interval ms v due Hi ltac:(lia)) as He.
    unfold timing in He.
    assert (clock (elapse wall ms v) + 1 = due) as Hc.
    { replace (clock (elapse wall ms v)) with (clock v + Z.of_nat ms) by congruence. lia. }
    apply tick_at_interval.
    - congruence.
    - rewrite Hc. congruence.
    - rewrite Hc. replace (date (elapse wall ms v)) with (date v) by congruence. exact Hday.
    - rewrite Hc. replace (nowFraction (elapse wall ms v)) with (nowFraction v) by congruence.
      exact Hfrac. }
  destruct (run_offToday wall actions w Hw) as [Hr Hn].
  unfold nowMarker. rewrite Hr. split; [reflexivity|exact Hn].
Qed.

End Interval.

(** The page is opened thirty seconds before midnight; the interval comes
    due thirty seconds after it.  Later the Today button is clicked and two
    more minutes pass. *)
Lemma marker_dropped_when_day_changes_example :
  let w := elapse Night.wall (Z.to_nat (Night.lateEvening + 60000 - clock Night.page))
             Night.page in
  nowMarker (run Night.wall [ClickToday; Elapse 120000] w) = None ∧
  intervalId (run Night.wall [ClickToday; Elapse 120000] w) = None.
Proof.
  apply (marker_dropped_when_day_changes Night.wall Night.page (Night.lateEvening + 60000)
           [ClickToday; Elapse 120000]).
  - reflexivity.
  - reflexivity.
  - vm_compute. reflexivity.
  - vm_compute. discriminate.
  - vm_compute. discriminate.
Defined.

(** ** The change of day *)

Section DayChange.

Variable wall : Z → Now.






(** *** The Today button *)








End DayChange.





(** ** The highlight and the classes of a block *)

Section Classes.

Variable wall : Z → Now.

Lemma classListAdd_grows : ∀ tokens cl : list string, ∃ added,
  classListAdd tokens cl = cl ++ added ∧ Forall (λ t, t ∈ tokens) added.
Proof.
  unfold classListAdd.
  induction tokens as [|t tokens IH]; intros cl; simpl.
  - exists []. rewrite app_nil_r. split; [reflexivity|constructor].
  - case_bool_decide as Ht.
    + destruct (IH cl) as (added & -> & Hadd). exists added. split; [reflexivity|].
      eapply Forall_impl; [exact Hadd|]. intros x Hx. right. exact Hx.
    + destruct (IH (cl ++ [t])) as (added & -> & Hadd). exists (t :: added).
      rewrite <- app_assoc. split; [reflexivity|].
      constructor; [left|].
      eapply Forall_impl; [exact Hadd|]. intros x Hx. right. exact Hx.
Qed.

Lemma classListRemove_added (tokens added cl : list string) :
  Forall (λ t, t ∈ tokens) added →
  classListRemove tokens (cl ++ added) = classListRemove tokens cl.
Proof.
  intros Hadd. unfold classListRemove. rewrite filter_app.
  assert (filter (λ t, t ∉ tokens) added = []) as ->; [|apply app_nil_r].
  induction Hadd as [|a added Ha _ IH]; [reflexivity|].
  rewrite filter_cons, decide_False by tauto. exact IH.
Qed.

Lemma classListRemove_fresh (tokens cl : list string) :
  Forall (λ t, t ∉ cl) tokens → classListRemove tokens cl = cl.
Proof.
  intros Hfresh. unfold classListRemove.
  assert (Forall (λ c, c ∉ tokens) cl) as Hcl.
  { apply Forall_forall. intros c Hc Hin.
    rewrite Forall_forall in Hfresh. exact (Hfresh c Hin Hc). }
  induction Hcl as [|c cl Hc _ IH]; [reflexivity|].
  rewrite filter_cons, decide_True by exact Hc. rewrite IH; [reflexivity|].
  eapply Forall_impl; [exact Hfresh|]. intros t Ht Hin. apply Ht. right. exact Hin.
Qed.

Lemma classListRemove_again (tokens cl : list string) :
  classListRemove tokens (classListRemove tokens cl) = classListRemove tokens cl.
Proof.
  apply classListRemove_fresh. apply Forall_forall. intros t Ht Hin.
  apply classListRemove_elem in Hin. tauto.
Qed.

Lemma handlePriorityClick_bare i v element :
  bare (handlePriorityClick i v) element = bare v element.
Proof.
  destruct (eventRefs v !! propertyKey i) as [el|] eqn:Hr;
    [|rewrite handlePriorityClick_idle by (left; exact Hr); reflexivity].
  destruct (scrollContainerRef v) as [c|] eqn:Hc;
    [|rewrite handlePriorityClick_idle by (right; exact Hc); reflexivity].
  unfold bare.
  rewrite (handlePriorityClick_classesOf i el v element Hr) by (rewrite Hc; eexists; reflexivity).
  case_decide as He; [subst element|reflexivity].
  destruct (classListAdd_grows ringClasses (classesOf v el)) as (added & -> & Hadd).
  apply classListRemove_added, Hadd.
Qed.

Lemma onTimeout_bare x v element : bare (onTimeout x v) element = bare v element.
Proof.
  unfold bare. rewrite onTimeout_classesOf.
  case_decide as He; [subst element; apply classListRemove_again|reflexivity].
Qed.

Lemma fold_onTimeout_bare element due : ∀ v,
  bare (fold_left (λ w (p : Z * Element), onTimeout p.2 w) due v) element = bare v element.
Proof.
  induction due as [|p due IH]; intros v; simpl; [reflexivity|].
  rewrite IH. apply onTimeout_bare.
Qed.

Lemma bare_decor v w element : decor v = decor w → bare v element = bare w element.
Proof.
  unfold decor, bare, classesOf. intros H.
  assert (classList v = classList w) as -> by congruence. reflexivity.
Qed.

Lemma tick_bare v element : bare (tick wall v) element = bare v element.
Proof.
  unfold tick.
  rewrite (bare_decor _ _ element (runInterval_decor wall _)).
  unfold runTimeouts. rewrite fold_onTimeout_bare. reflexivity.
Qed.

Lemma elapse_bare element ms : ∀ v, bare (elapse wall ms v) element = bare v element.
Proof.
  induction ms as [|ms IH]; intros v; simpl; [reflexivity|].
  rewrite IH. apply tick_bare.
Qed.

Lemma run_bare element actions : ∀ v, bare (run wall actions v) element = bare v element.
Proof.
  induction actions as [|a actions IH]; intros v; simpl; [reflexivity|].
  rewrite IH. destruct a; simpl.
  - apply handlePriorityClick_bare.
  - apply bare_decor, scrollToNow_decor.
  - apply elapse_bare.
Qed.

Lemma mount_bare date label events box t0 element :
  bare (mount wall date label events box t0) element =
    classesOf (mount wall date label events box t0) element.
Proof.
  unfold bare.
  destruct (mount_classesOf wall date label events box t0 element) as [-> | ->]; reflexivity.
Qed.

(** X11 (dailyView.tsx, [handlePriorityClick] and the [className] of the
    blocks): the highlight changes nothing but the two ring classes.  In
    every view reached from a mount, the classes of an element other than
    the ring classes are those it was rendered with; and two seconds after
    the last click its class list is again exactly the one it was rendered
    with. *)
Theorem highlight_changes_only_the_ring date label events box t0 actions element :
  let v0 := mount wall date label events box t0 in
  let v := run wall actions v0 in
  classListRemove ringClasses (classesOf v element) = classesOf v0 element ∧
  classesOf (elapse wall 2000 v) element = classesOf v0 element.
Proof.
  cbv zeta.
  pose proof (run_bare element actions (mount wall date label events box t0)) as Hb.
  rewrite mount_bare in Hb. split; [exact Hb|].
  destruct (tidy_settles wall _
              (run_tidy wall actions _ (mount_tidy wall date label events box t0)))
    as [_ Hplain].
  rewrite <- Hb, <- (elapse_bare element 2000). unfold bare.
  symmetry. apply classListRemove_fresh. apply Hplain.
Qed.

(** *** A click on an entry reaches the block of its event *)

(** X12 (dailyView.tsx, the ref callback of the blocks and
    [handlePriorityClick]).  When the events have distinct property keys,
    a click on the entry of the [j]-th event, whatever has happened since
    the mount, scrolls the [j]-th block into view, puts the ring on that
    block and on no other, and schedules its removal two seconds later. *)
Theorem entry_click_reaches_its_block date label events box t0 actions (j : nat) evt :
  NoDup (map (λ e, propertyKey (id e)) events) →
  events !! j = Some evt →
  let v := run wall actions (mount wall date label events box t0) in
  let w := handlePriorityClick (id evt) v in
  scrolledIntoView w = j :: scrolledIntoView v ∧
  highlighted w j ∧
  (∀ other, other ≠ j → classesOf w other = classesOf v other) ∧
  timeouts w = timeouts v ++ [(clock v + 2000, j)].
Proof.
  intros Hnd Hj v w.
  assert (eventRefs v !! propertyKey (id evt) = Some (j : Element)) as Hr.
  { unfold v. rewrite run_eventRefs, mount_eventRefs.
    apply (attachRefs_lookup events 0 ∅ j evt Hnd Hj). }
  assert (is_Some (scrollContainerRef v)) as Hc.
  { apply run_attached, mount_attached. }
  clearbody v. subst w.
  split; [|split; [|split]].
  - unfold handlePriorityClick. rewrite Hr. destruct Hc as [c ->]. reflexivity.
  - unfold highlighted. apply Forall_forall. intros t Ht.
    rewrite (handlePriorityClick_classesOf _ _ _ j Hr Hc).
    rewrite decide_True by reflexivity. apply classListAdd_elem. right. exact Ht.
  - intros other Hne. rewrite (handlePriorityClick_classesOf _ _ _ other Hr Hc).
    rewrite decide_False by congruence. reflexivity.
  - apply (handlePriorityClick_timeouts _ _ _ Hr Hc).
Qed.

End Classes.

(** The entry of the dinner, the third event of the sample page, clicked
    after the breakfast's entry and half a second. *)
Lemma entry_click_reaches_its_block_example :
  let v := run Sample.wall [ClickEntry (IdNumber 1); Elapse 500] Sample.page in
  let w := handlePriorityClick (IdNumber 3) v in
  scrolledIntoView w = 2%nat :: scrolledIntoView v ∧
  highlighted w 2%nat ∧
  (∀ other, other ≠ 2%nat → classesOf w other = classesOf v other) ∧
  timeouts w = timeouts v ++ [(clock v + 2000, 2%nat)].
Proof.
  apply (entry_click_reaches_its_block Sample.wall "2022-01-22" "Saturday"
           (DailyPage.events "2022-01-22") Sample.container Sample.morning
           [ClickEntry (IdNumber 1); Elapse 500] 2
           (mkEvent (IdNumber 3) "Dinner Reservation" None
              "2022-01-22T19:00" "2022-01-22T20:30" None Low)).
  - compute_done.
  - reflexivity.
Defined.

(** ** After the view is unmounted *)

Section Unmounted.

Variable wall : Z → Now.

Lemma tick_no_interval v :
  intervalId v = None → tick wall v = runTimeouts (setClock (clock v + 1) v).
Proof.
  intros Hi. unfold tick, runInterval.
  pose proof (runTimeouts_timing (setClock (clock v + 1) v)) as H.
  unfold timing in H. simpl in H.
  assert (intervalId (runTimeouts (setClock (clock v + 1) v)) = None) as -> by congruence.
  reflexivity.
Qed.

Lemma elapse_no_interval ms : ∀ v,
  intervalId v = None →
  nowFraction (elapse wall ms v) = nowFraction v ∧
  isToday (elapse wall ms v) = isToday v ∧
  intervalId (elapse wall ms v) = None ∧
  scrollContainerRef (elapse wall ms v) = scrollContainerRef v.
Proof.
  induction ms as [|ms IH]; intros v Hi; simpl elapse; [auto|].
  pose proof (runTimeouts_timing (setClock (clock v + 1) v)) as H.
  unfold timing in H. simpl in H.
  rewrite (tick_no_interval v Hi).
  destruct (IH (runTimeouts (setClock (clock v + 1) v)) ltac:(congruence))
    as (-> & -> & -> & ->).
  unfold runTimeouts at 3. rewrite fold_onTimeout_container.
  repeat split; congruence.
Qed.

(** X13 (dailyView.tsx, the cleanup of the effect and the guards of
    [scrollToNow] and [handlePriorityClick]).  Once the view is unmounted,
    no time that passes brings the interval back or updates the state, and
    the two handlers, should a stale closure still call them, change
    nothing. *)
Theorem unmounted_view_is_inert v ms i :
  let u := elapse wall ms (unmount v) in
  intervalId u = None ∧ nowFraction u = nowFraction v ∧ isToday u = isToday v ∧
  handlePriorityClick i u = u ∧ scrollToNow wall u = u.
Proof.
  cbv zeta.
  destruct (elapse_no_interval ms (unmount v) eq_refl) as (Hf & Ht & Hi & Hc).
  simpl in Hf, Ht, Hc.
  split; [exact Hi|]. split; [exact Hf|]. split; [exact Ht|]. split.
  - apply handlePriorityClick_idle. right. exact Hc.
  - unfold scrollToNow. rewrite Hc. reflexivity.
Qed.

End Unmounted.

(** ** The scroll position on a clock that runs from 00:00 to 23:59 *)

Section Clamp.

Variable wall : Z → Now.

(** X14 (dailyView.tsx, [scrollToNow]).  For a clock whose hours run from 0
    to 23 and whose minutes run from 0 to 59, and a container that is not
    higher than its content, the bounds of [Math.max] and [Math.min] are
    never reached from outside: the scroll position is the fraction of the
    day times the scrollable height, and it stays at or below 1439/1440 of
    that height. *)
Theorem scroll_position_needs_no_clamp v container :
  isToday v = true → scrollContainerRef v = Some container →
  0 ≤ nowHours (wall (clock v)) ≤ 23 → 0 ≤ nowMinutes (wall (clock v)) ≤ 59 →
  (clientHeight container <= scrollHeight container)%Q →
  ∃ c, scrollContainerRef (scrollToNow wall v) = Some c ∧
       (scrollTop c ==
          computeNowFraction (wall (clock v)) *
            (scrollHeight container - clientHeight container))%Q ∧
       (0 <= scrollTop c)%Q ∧
       (scrollTop c <= (1439 # 1440) * (scrollHeight container - clientHeight container))%Q.
Proof.
  intros Ht Hc Hh Hm Hbox.
  unfold scrollToNow. rewrite Hc, Ht. simpl.
  eexists. split; [reflexivity|]. simpl scrollTop. unfold computeNowFraction.
  set (n := nowHours (wall (clock v)) * 60 + nowMinutes (wall (clock v))).
  set (m := (scrollHeight container - clientHeight container)%Q).
  assert (0 ≤ n ≤ 1439) as Hn by (unfold n; lia).
  assert (0 <= m)%Q as Hm0.
  { unfold m. apply (proj1 (Qle_minus_iff _ _)). exact Hbox. }
  assert (inject_Z n / 1440 == inject_Z n * (1 # 1440))%Q as Hf by field.
  assert (0 <= inject_Z n / 1440)%Q as Hf0.
  { rewrite Hf. unfold Qle, Qmult, inject_Z; simpl. lia. }
  assert (inject_Z n / 1440 <= 1439 # 1440)%Q as Hf1.
  { rewrite Hf. unfold Qle, Qmult, inject_Z; simpl. lia. }
  assert (0 <= inject_Z n / 1440 * m)%Q as Hlo by (apply Qmult_le_0_compat; assumption).
  assert (inject_Z n / 1440 * m <= (1439 # 1440) * m)%Q as Hhi
    by (apply Qmult_le_compat_r; assumption).
  assert ((1439 # 1440) * m <= m)%Q as Hm1.
  { rewrite <- (Qmult_1_l m) at 2. apply Qmult_le_compat_r; [|exact Hm0].
    unfold Qle; simpl; lia. }
  assert (Qmin (inject_Z n / 1440 * m) m == inject_Z n / 1440 * m)%Q as Hmin.
  { apply Q.min_l. eapply Qle_trans; [exact Hhi|exact Hm1]. }
  assert (Qmax 0 (Qmin (inject_Z n / 1440 * m) m) == inject_Z n / 1440 * m)%Q as Hmax.
  { rewrite Hmin. apply Q.max_r. exact Hlo. }
  rewrite Hmax. split; [reflexivity|]. split; [exact Hlo|exact Hhi].
Qed.

End Clamp.

(** The Today button on the sample page, at half past six. *)
Lemma scroll_position_needs_no_clamp_example :
  ∃ c, scrollContainerRef (scrollToNow Sample.wall Sample.page) = Some c ∧
       (scrollTop c ==
          computeNowFraction (Sample.wall (clock Sample.page)) * (2688 - 800))%Q ∧
       (0 <= scrollTop c)%Q ∧
       (scrollTop c <= (1439 # 1440) * (2688 - 800))%Q.
Proof.
  apply (scroll_position_needs_no_clamp Sample.wall Sample.page
           (mkContainer 2688 800 (Spec.nowPosition (Sample.wall Sample.morning)
                                    Sample.container))).
  - reflexivity.
  - reflexivity.
  - vm_compute. split; discriminate.
  - vm_compute. split; discriminate.
  - vm_compute. discriminate.
Defined.

(** ** The page and its three events *)

Section Page.

Variable wall : Z → Now.

Lemma append_assoc (a b c : string) : (a +:+ b) +:+ c = a +:+ (b +:+ c).
Proof.
  induction a as [|x a IH]; [reflexivity|].
  rewrite !append_String, IH. reflexivity.
Qed.

Lemma isoDay_time y mo d h mi :
  Calendar.isoDay y mo d +:+ "T" +:+ Spec.twoDigits h +:+ ":" +:+ Spec.twoDigits mi
    = Spec.isoLocal y mo d h mi.
Proof.
  unfold Calendar.isoDay, Spec.isoLocal. rewrite !append_assoc. reflexivity.
Qed.

Lemma newDate_isoDay y mo d h mi time :
  0 ≤ y ≤ 9999 → 1 ≤ mo ≤ 12 → 1 ≤ d ≤ daysInMonth y mo → 0 ≤ h ≤ 23 → 0 ≤ mi ≤ 59 →
  time = "T" +:+ Spec.twoDigits h +:+ ":" +:+ Spec.twoDigits mi →
  newDate (Calendar.isoDay y mo d +:+ time) = Some (mkDate y (mo - 1) d h mi 0 0).
Proof.
  intros Hy Hmo Hd Hh Hmi ->. rewrite isoDay_time. apply newDate_isoLocal; assumption.
Qed.

Lemma local_isoDay zone y mo d h mi time :
  0 ≤ y ≤ 9999 → 1 ≤ mo ≤ 12 → 1 ≤ d ≤ daysInMonth y mo → 0 ≤ h ≤ 23 → 0 ≤ mi ≤ 59 →
  zone (mkDate y (mo - 1) d h mi 0 0) = mkDate y (mo - 1) d h mi 0 0 →
  time = "T" +:+ Spec.twoDigits h +:+ ":" +:+ Spec.twoDigits mi →
  Host.local zone (Calendar.isoDay y mo d +:+ time) = Some (mkDate y (mo - 1) d h mi 0 0).
Proof.
  intros Hy Hmo Hd Hh Hmi Hkept Ht. unfold Host.local.
  rewrite (newDate_isoDay y mo d h mi time) by assumption. simpl.
  rewrite Hkept. unfold Host.timeOfDay. simpl.
  assert ((0 <=? h) && (h <=? 23) && (0 <=? mi) && (mi <=? 59) = true) as -> by lia.
  reflexivity.
Qed.

(** X15 (page.tsx, [DailyPage], with [getMinutesOfDay], [formatTimeRange]
    and the priority groups of dailyView.tsx).  On whatever calendar day
    and at whatever time the page is opened, in whatever time zone whose
    clock skips no minute of that day, the view it mounts shows that day as
    today, reads the six date-time strings the page builds from the day,
    has breakfast, flight and dinner at 6:00-7:00, 7:30-9:00 and
    19:00-20:30 with these labels, and lists one event in each priority
    group. *)
Theorem page_shows_its_events_today (zone : Host.Zone) weekday box t0 y mo d :
  0 ≤ y ≤ 9999 → 1 ≤ mo ≤ 12 → 1 ≤ d ≤ daysInMonth y mo →
  todayIso (wall t0) = Calendar.isoDay y mo d →
  (∀ h mi, 0 ≤ h ≤ 23 → 0 ≤ mi ≤ 59 →
     zone (mkDate y (mo - 1) d h mi 0 0) = mkDate y (mo - 1) d h mi 0 0) →
  let v := DailyPage.DailyPage wall weekday box t0 in
  isToday v = true ∧
  map (λ e, (Host.getMinutesOfDay (Host.local zone) (start e),
             Host.getMinutesOfDay (Host.local zone) (end_ e))) (events v) =
    [(Some 360, Some 420); (Some 450, Some 540); (Some 1140, Some 1230)] ∧
  map (λ e, (title e, Host.formatTimeRange (Host.local zone) (start e) (end_ e)))
      (events v) =
    [("Breakfast"%string, Some "6:00 AM - 7:00 AM"%string);
     ("Flight to Paris"%string, Some "7:30 AM - 9:00 AM"%string);
     ("Dinner Reservation"%string, Some "7:00 PM - 8:30 PM"%string)] ∧
  map entryIds (sidePanel (events v)) = [[IdNumber 1]; [IdNumber 2]; [IdNumber 3]].
Proof.
  intros Hy Hmo Hd Hday Hkept v.
  assert (∀ h mi time, 0 ≤ h ≤ 23 → 0 ≤ mi ≤ 59 →
            time = "T" +:+ Spec.twoDigits h +:+ ":" +:+ Spec.twoDigits mi →
            Host.local zone (todayIso (wall t0) +:+ time)
              = Some (mkDate y (mo - 1) d h mi 0 0))
    as Hread.
  { intros h mi time Hh Hmi Ht. rewrite Hday. apply local_isoDay; auto. }
  assert (v = mkView (todayIso (wall t0)) weekday (DailyPage.events (todayIso (wall t0)))
                (computeNowFraction (wall t0)) true
                (Some (mkContainer (scrollHeight box) (clientHeight box)
                         (Spec.nowPosition (wall t0) box)))
                (attachRefs 0 (DailyPage.events (todayIso (wall t0))) ∅)
                (attachClasses 0 (DailyPage.events (todayIso (wall t0))) ∅)
                [] (Some (t0 + 60000)) [] t0) as ->.
  { unfold v, DailyPage.DailyPage. apply mount_today. reflexivity. }
  cbn [isToday events]. unfold DailyPage.events.
  split; [reflexivity|].
  split; [|split].
  - cbn [map start end_]. unfold Host.getMinutesOfDay.
    rewrite (Hread 6 0 "T06:00"), (Hread 7 0 "T07:00"), (Hread 7 30 "T07:30"),
      (Hread 9 0 "T09:00"), (Hread 19 0 "T19:00"), (Hread 20 30 "T20:30")
      by (lia || reflexivity).
    reflexivity.
  - cbn [map start end_ title]. unfold Host.formatTimeRange.
    rewrite (Hread 6 0 "T06:00"), (Hread 7 0 "T07:00"), (Hread 7 30 "T07:30"),
      (Hread 9 0 "T09:00"), (Hread 19 0 "T19:00"), (Hread 20 30 "T20:30")
      by (lia || reflexivity).
    reflexivity.
  - reflexivity.
Qed.

End Page.

(** The page opened in New York on the leap day of 2024. *)
Lemma page_shows_its_events_today_example :
  let wall := λ t : Z, mkNow "2024-02-29" ((t / 3600000) mod 24) ((t / 60000) mod 60) in
  let v := DailyPage.DailyPage wall "Thursday" Sample.container Sample.morning in
  isToday v = true ∧
  map (λ e, (Host.getMinutesOfDay (Host.local Host.newYork2022) (start e),
             Host.getMinutesOfDay (Host.local Host.newYork2022) (end_ e))) (events v) =
    [(Some 360, Some 420); (Some 450, Some 540); (Some 1140, Some 1230)] ∧
  map (λ e, (title e, Host.formatTimeRange (Host.local Host.newYork2022) (start e) (end_ e)))
      (events v) =
    [("Breakfast"%string, Some "6:00 AM - 7:00 AM"%string);
     ("Flight to Paris"%string, Some "7:30 AM - 9:00 AM"%string);
     ("Dinner Reservation"%string, Some "7:00 PM - 8:30 PM"%string)] ∧
  map entryIds (sidePanel (events v)) = [[IdNumber 1]; [IdNumber 2]; [IdNumber 3]].
Proof.
  apply (page_shows_its_events_today
           (λ t : Z, mkNow "2024-02-29" ((t / 3600000) mod 24) ((t / 60000) mod 60))
           Host.newYork2022 "Thursday" Sample.container Sample.morning 2024 2 29).
  - vm_compute. split; discriminate.
  - vm_compute. split; discriminate.
  - vm_compute. split; discriminate.
  - reflexivity.
  - intros h mi Hh Hmi. reflexivity.
Defined.

(** ** The marker in doubles *)

Section MarkerDoubles.

(** X16 (dailyView.tsx, [computeNowFraction] and the [top] of the
    current-time indicator).  For a clock from 00:00 to 23:59, the
    percentage that JavaScript computes in doubles for the marker is finite,
    lies from 0 to 100 and is within 2^-44 of the exact percentage of the
    rendered marker. *)
Theorem marker_in_doubles v now :
  isToday v = true → nowFraction v = computeNowFraction now →
  0 ≤ nowHours now ≤ 23 → 0 ≤ nowMinutes now ≤ 59 →
  ∃ p t64,
    nowMarker v = Some p ∧
    Binary64.value (Binary64.startPct (nowHours now * 60 + nowMinutes now)) = Some t64 ∧
    (Qabs (t64 - p) <= 1 # 17592186044416)%Q ∧
    (0 <= t64)%Q ∧ (t64 <= 100)%Q.
Proof.
  intros Ht Hf Hh Hm.
  set (n := nowHours now * 60 + nowMinutes now).
  destruct (binary64_layout n n) as (t64 & h64 & Hvt & _ & Hnt & _ & Ht0 & Hfw);
    [unfold n; lia..|].
  destruct (Hfw ltac:(lia)) as [Hh0 Hsum].
  exists (inject_Z n / 1440 * 100)%Q, t64.
  split; [unfold nowMarker; rewrite Ht, Hf; reflexivity|].
  split; [exact Hvt|]. split; [exact Hnt|]. split; [exact Ht0|].
  apply Qle_trans with (t64 + h64)%Q; [|exact Hsum].
  rewrite <- (Qplus_0_r t64) at 1. apply Qplus_le_r. exact Hh0.
Qed.

End MarkerDoubles.

(** The marker of the sample page, at half past six. *)
Lemma marker_in_doubles_example :
  ∃ p t64,
    nowMarker Sample.page = Some p ∧
    Binary64.value (Binary64.startPct (6 * 60 + 30)) = Some t64 ∧
    (Qabs (t64 - p) <= 1 # 17592186044416)%Q ∧
    (0 <= t64)%Q ∧ (t64 <= 100)%Q.
Proof.
  apply (marker_in_doubles Sample.page (mkNow "2022-01-22" 6 30)).
  - reflexivity.
  - reflexivity.
  - vm_compute. split; discriminate.
  - vm_compute. split; discriminate.
Defined.
